(** * A shallow embedding of the web-scraping ETL pipeline

    Source: [src/etl_pipeline.py], class [WebScraper]: the constructor,
    the three stages and the per-URL orchestrator; and [main.py], the
    driver that runs the pipeline on each URL of a fixed list.

    Python values are embedded as follows.
    - A [str] is the list of its Unicode code points ([pystr]).
    - A [dict] with string keys is a finite map ([gmap string pyval]).
    - [None] where a dict is expected is [option]'s [None].
    - A Python exception is a value of [exn]; a call that may raise
      returns an [outcome].
    - Logging, the HTTP request and the SQLite file are effects on an
      explicit [world]; what the outside answers (HTTP response, parser
      result, clock, storage faults) is read from an [env].
    - A database is a file named by [db_name]; the names [':memory:'] and
      [''], under which SQLite opens a database private to the
      connection, keep nothing from one call to the next. *)

From Stdlib Require Import ZArith Lia.
From stdpp Require Import gmap strings list fin_maps.

Local Open Scope Z_scope.

(** ** Python strings *)

Module PyStr.

(** A Python [str]: the sequence of its code points. *)
Definition pystr := list Z.

(** A string literal of the source, as code points. *)
Fixpoint lit (s : string) : pystr :=
  match s with
  | EmptyString => []
  | String a s' => Z.of_nat (Ascii.nat_of_ascii a) :: lit s'
  end.

(** [str.isspace] on one code point (CPython's [Py_UNICODE_ISSPACE]):
    the separators that [str.split()] and [str.strip()] use. *)
Definition isspace (c : Z) : bool :=
  (9 <=? c) && (c <=? 13)
  || (28 <=? c) && (c <=? 32)
  || (c =? 133) || (c =? 160) || (c =? 5760)
  || (8192 <=? c) && (c <=? 8202)
  || (c =? 8232) || (c =? 8233) || (c =? 8239) || (c =? 8287)
  || (c =? 12288).

Definition space : Z := 32.

(** [s.lstrip()] *)
Fixpoint lstrip (s : pystr) : pystr :=
  match s with
  | [] => []
  | c :: s' => if isspace c then lstrip s' else s
  end.

(** [s.rstrip()]: written by recursion from the left; the tail is
    dropped when everything from here on is whitespace. *)
Fixpoint rstrip (s : pystr) : pystr :=
  match s with
  | [] => []
  | c :: s' =>
      match rstrip s' with
      | [] => if isspace c then [] else [c]
      | r => c :: r
      end
  end.

(** [s.strip()] *)
Definition strip (s : pystr) : pystr := rstrip (lstrip s).

(** [s.split()] with no separator: the maximal runs of non-whitespace.
    [tok] is the token being read. *)
Fixpoint split_from (tok : pystr) (s : pystr) : list pystr :=
  match s with
  | [] => match tok with [] => [] | _ => [tok] end
  | c :: s' =>
      if isspace c
      then match tok with
           | [] => split_from [] s'
           | _ => tok :: split_from [] s'
           end
      else split_from (tok ++ [c]) s'
  end.

Definition split (s : pystr) : list pystr := split_from [] s.

(** [sep.join(parts)] *)
Fixpoint join (sep : pystr) (parts : list pystr) : pystr :=
  match parts with
  | [] => []
  | [p] => p
  | p :: rest => p ++ sep ++ join sep rest
  end.

(** [s[:n]] for a non-negative literal [n]. *)
Definition slice_to (n : nat) (s : pystr) : pystr := take n s.

(** A code point that UTF-8 can encode: in range and not a surrogate. *)
Definition encodable (c : Z) : bool :=
  (0 <=? c) && (c <? 55296) || (57344 <=? c) && (c <=? 1114111).

(** The UTF-8 bytes of one encodable code point. *)
Definition utf8_char (c : Z) : list Z :=
  if c <? 128 then [c]
  else if c <? 2048 then
    [Z.lor 192 (Z.shiftr c 6); Z.lor 128 (Z.land c 63)]
  else if c <? 65536 then
    [Z.lor 224 (Z.shiftr c 12);
     Z.lor 128 (Z.land (Z.shiftr c 6) 63);
     Z.lor 128 (Z.land c 63)]
  else
    [Z.lor 240 (Z.shiftr c 18);
     Z.lor 128 (Z.land (Z.shiftr c 12) 63);
     Z.lor 128 (Z.land (Z.shiftr c 6) 63);
     Z.lor 128 (Z.land c 63)].

(** [s.encode()]: [None] stands for [UnicodeEncodeError]. *)
Fixpoint encode (s : pystr) : option (list Z) :=
  match s with
  | [] => Some []
  | c :: s' =>
      if encodable c
      then match encode s' with
           | Some bs => Some (utf8_char c ++ bs)
           | None => None
           end
      else None
  end.

End PyStr.

(** ** [hashlib.md5(...).hexdigest()] (RFC 1321) *)

Module MD5.

Definition mask32 (x : Z) : Z := Z.land x 4294967295.

Definition rotl32 (x n : Z) : Z :=
  mask32 (Z.lor (Z.shiftl x n) (Z.shiftr x (32 - n))).

Definition not32 (x : Z) : Z := Z.lxor x 4294967295.

Definition K : list Z :=
  [3614090360; 3905402710; 606105819; 3250441966;
   4118548399; 1200080426; 2821735955; 4249261313;
   1770035416; 2336552879; 4294925233; 2304563134;
   1804603682; 4254626195; 2792965006; 1236535329;
   4129170786; 3225465664; 643717713; 3921069994;
   3593408605; 38016083; 3634488961; 3889429448;
   568446438; 3275163606; 4107603335; 1163531501;
   2850285829; 4243563512; 1735328473; 2368359562;
   4294588738; 2272392833; 1839030562; 4259657740;
   2763975236; 1272893353; 4139469664; 3200236656;
   681279174; 3936430074; 3572445317; 76029189;
   3654602809; 3873151461; 530742520; 3299628645;
   4096336452; 1126891415; 2878612391; 4237533241;
   1700485571; 2399980690; 4293915773; 2240044497;
   1873313359; 4264355552; 2734768916; 1309151649;
   4149444226; 3174756917; 718787259; 3951481745].

Definition S : list Z :=
  [7; 12; 17; 22; 7; 12; 17; 22; 7; 12; 17; 22; 7; 12; 17; 22;
   5; 9; 14; 20; 5; 9; 14; 20; 5; 9; 14; 20; 5; 9; 14; 20;
   4; 11; 16; 23; 4; 11; 16; 23; 4; 11; 16; 23; 4; 11; 16; 23;
   6; 10; 15; 21; 6; 10; 15; 21; 6; 10; 15; 21; 6; 10; 15; 21].

(** Little-endian bytes of a word, [n] of them. *)
Fixpoint le_bytes (n : nat) (x : Z) : list Z :=
  match n with
  | O => []
  | Datatypes.S n' => Z.land x 255 :: le_bytes n' (Z.shiftr x 8)
  end.

(** The little-endian word of a byte list. *)
Fixpoint le_word (bs : list Z) : Z :=
  match bs with
  | [] => 0
  | b :: bs' => b + 256 * le_word bs'
  end.

(** Padding: a 1 bit, zeros up to 56 mod 64, the bit length on 64 bits. *)
Definition pad (msg : list Z) : list Z :=
  let len := Z.of_nat (length msg) in
  msg ++ [128] ++ replicate (Z.to_nat ((55 - len) mod 64)) 0
      ++ le_bytes 8 (Z.land (8 * len) 18446744073709551615).

(** The sixteen 32-bit words of a 64-byte block. *)
Fixpoint words (n : nat) (block : list Z) : list Z :=
  match n with
  | O => []
  | Datatypes.S n' => le_word (take 4 block) :: words n' (drop 4 block)
  end.

Definition state : Type := Z * Z * Z * Z.

(** One of the 64 operations on a block. *)
Definition step (M : list Z) (st : state) (i : nat) : state :=
  let '(a, b, c, d) := st in
  let iz := Z.of_nat i in
  let '(f, g) :=
    if iz <? 16 then (Z.lor (Z.land b c) (Z.land (not32 b) d), iz)
    else if iz <? 32 then
      (Z.lor (Z.land d b) (Z.land (not32 d) c), (5 * iz + 1) mod 16)
    else if iz <? 48 then (Z.lxor b (Z.lxor c d), (3 * iz + 5) mod 16)
    else (Z.lxor c (Z.lor b (not32 d)), (7 * iz) mod 16) in
  let f' := mask32 (f + a + K !!! i + M !!! Z.to_nat g) in
  (d, mask32 (b + rotl32 f' (S !!! i)), b, c).

Definition compress (st : state) (block : list Z) : state :=
  let '(a0, b0, c0, d0) := st in
  let '(a, b, c, d) := foldl (step (words 16 block)) st (seq 0 64) in
  (mask32 (a0 + a), mask32 (b0 + b), mask32 (c0 + c), mask32 (d0 + d)).

(** The blocks of a padded message, [n] of them. *)
Fixpoint blocks (n : nat) (bs : list Z) : list (list Z) :=
  match n with
  | O => []
  | Datatypes.S n' => take 64 bs :: blocks n' (drop 64 bs)
  end.

Definition initial : state := (1732584193, 4023233417, 2562383102, 271733878).

Definition digest (msg : list Z) : list Z :=
  let p := pad msg in
  let '(a, b, c, d) := foldl compress initial (blocks (length p / 64) p) in
  le_bytes 4 a ++ le_bytes 4 b ++ le_bytes 4 c ++ le_bytes 4 d.

Definition hex_digit (n : Z) : Z := if n <? 10 then 48 + n else 87 + n.

Definition hex_byte (b : Z) : list Z :=
  [hex_digit (Z.shiftr b 4); hex_digit (Z.land b 15)].

(** [hashlib.md5(msg).hexdigest()], a [str] of 32 hex digits. *)
Definition hexdigest (msg : list Z) : PyStr.pystr :=
  mjoin (hex_byte <$> digest msg).

End MD5.

(** ** Python values, exceptions and effects *)

Module Py.

Import PyStr.

(** The values a record field holds: [None] or a [str]. *)
Inductive pyval :=
  | PyNone
  | PyStr (s : pystr).

#[global] Instance pyval_eq_dec : EqDecision pyval.
Proof. solve_decision. Defined.

(** A Python [dict] with string keys (here: the field names). *)
Abbreviation dict := (gmap string pyval).

(** The classes of [Exception] the pipeline meets.  The first four are
    [requests.exceptions.RequestException] and its subclasses;
    [OtherException] is any further subclass of [Exception]. *)
Inductive exn_class :=
  | RequestException
  | HTTPError
  | ConnectionError
  | Timeout
  | KeyError
  | AttributeError
  | UnicodeEncodeError
  | SqliteError
  | OtherException (name : string).

(** An exception instance: its class and [str(e)]. *)
Record exn := Exn { exn_type : exn_class; exn_str : pystr }.

(** [isinstance(e, requests.exceptions.RequestException)] *)
Definition is_RequestException (e : exn) : bool :=
  match exn_type e with
  | RequestException | HTTPError | ConnectionError | Timeout => true
  | _ => false
  end.

(** [isinstance(e, Exception)]: every modelled exception. *)
Definition is_Exception (e : exn) : bool := true.

(** What a call does: return a value or raise. *)
Inductive outcome (A : Type) :=
  | Ret (a : A)
  | Raise (e : exn).
Arguments Ret {A} a.
Arguments Raise {A} e.

End Py.

Import PyStr Py.

(** ** The outside world *)

Module World.

(** A column value in SQLite: NULL or TEXT. *)
Abbreviation sqlval := (option pystr).

(** A row of [web_data]. *)
Record row := Row {
  id : Z;
  title : sqlval;
  content : sqlval;
  url : sqlval;
  timestamp : sqlval;
  data_hash : sqlval
}.

(** The uniqueness constraints a [web_data] table was declared with.  The
    table of a database file may predate the program: [CREATE TABLE IF NOT
    EXISTS] keeps it as it is. *)
Record schema := Schema {
  unique_url : bool;
  unique_data_hash : bool
}.

(** A [web_data] table: its declaration, its rows in insertion order and
    the largest [id] it ever held (SQLite's [sqlite_sequence] entry of an
    AUTOINCREMENT key). *)
Record table := Table {
  declared : schema;
  rows : list row;
  sequence : Z
}.

(** What the program does that the outside can observe. *)
Inductive event :=
  | LogInfo (msg : pystr)
  | LogError (msg : pystr)
  | HttpGet (url : pystr)
  | SqlConnect (db_name : pystr).

(** The world: for each database file that has a [web_data] table, that
    table (a missing file, or a file without the table, has no entry);
    the database files in which [web_data] names a view instead; and the
    events so far, oldest first.  The names [':memory:'] and [''] are not
    files: each connection to them opens a database of its own, which is
    gone with the connection, so a world has no entry for them. *)
Record world := Mkworld {
  tables : gmap pystr table;
  views : gset pystr;
  trace : list event
}.

(** [requests.Response], as far as the source reads it. *)
Record Response := Mkresponse {
  status_code : Z;
  body : list Z
}.

(** A [bs4] tag, as far as the source reads it: [.string] is [None] or
    the single text node. *)
Record Tag := Mktag { tag_string : pyval }.

(** A parsed document, as far as the source reads it: [soup.title] and
    [soup.get_text()]. *)
Record Soup := Mksoup {
  soup_title : option Tag;
  get_text : pystr
}.

(** The points of a storage access at which SQLite can fail. *)
Inductive sql_step := AtConnect | AtExecute | AtCommit.

(** What the outside answers during one call. *)
Record env := Mkenv {
  (* [requests.get(url, headers=..., timeout=10)] *)
  requests_get : pystr -> outcome Response;
  (* [BeautifulSoup(bytes, 'html.parser')] *)
  html_parser : list Z -> outcome Soup;
  (* [datetime.now().isoformat()] *)
  datetime_now : pystr;
  (* an error of the storage engine (locked, I/O, disk full), if any *)
  sqlite_fault : sql_step -> option exn
}.

End World.

Import World.

(** ** Computations with effects and exceptions *)

Definition M (A : Type) : Type := world -> outcome A * world.

Definition ret {A} (a : A) : M A := fun w => (Ret a, w).

Definition raise {A} (e : exn) : M A := fun w => (Raise e, w).

Definition bind {A B} (m : M A) (k : A -> M B) : M B :=
  fun w =>
    match m w with
    | (Ret a, w') => k a w'
    | (Raise e, w') => (Raise e, w')
    end.

(** [try: m  except C as e: h e], where [catches] decides
    [isinstance(e, C)]. *)
Definition try_except {A} (m : M A) (catches : exn -> bool)
    (h : exn -> M A) : M A :=
  fun w =>
    match m w with
    | (Ret a, w') => (Ret a, w')
    | (Raise e, w') => if catches e then h e w' else (Raise e, w')
    end.

Declare Scope py_scope.
Delimit Scope py_scope with py.
Notation "x <- m ;; k" := (bind m (fun x => k))
  (at level 100, m at next level, right associativity,
   format "'[v' x  <-  m  ;; '/' k ']'") : py_scope.
Notation "m ;; k" := (bind m (fun _ => k))
  (at level 100, right associativity,
   format "'[v' m  ;; '/' k ']'") : py_scope.
Local Open Scope py_scope.

Definition emit (ev : event) : M unit :=
  fun w => (Ret tt, {| tables := tables w;
                       views := views w;
                       trace := trace w ++ [ev] |}).

(** [self.logger.info(msg)] and [self.logger.error(msg)] *)
Definition logger_info (msg : pystr) : M unit := emit (LogInfo msg).
Definition logger_error (msg : pystr) : M unit := emit (LogError msg).

(** Lifts an outcome that does not touch the world. *)
Definition lift {A} (o : outcome A) : M A := fun w => (o, w).

(** ** The storage engine *)

Module Sqlite.

(** The schema of the [CREATE TABLE] statement of [setup_database]:
    [url TEXT UNIQUE] and [data_hash TEXT UNIQUE]. *)
Definition web_data_schema : schema :=
  {| unique_url := true; unique_data_hash := true |}.

(** The largest ROWID; an AUTOINCREMENT table that reached it is full. *)
Definition max_rowid : Z := 9223372036854775807.

(** Two values collide under a UNIQUE constraint: equal and not NULL. *)
Definition same_text (a b : sqlval) : bool :=
  match a, b with
  | Some x, Some y => bool_decide (x = y)
  | _, _ => false
  end.

(** [old] breaks a declared uniqueness constraint against [new]. *)
Definition conflicts (s : schema) (new old : row) : bool :=
  unique_url s && same_text (url new) (url old)
  || unique_data_hash s && same_text (data_hash new) (data_hash old).

(** [sqlite3.connect(db_name)] *)
Definition connect (e : env) (db_name : pystr) : M unit :=
  emit (SqlConnect db_name) ;;
  match sqlite_fault e AtConnect with
  | Some ex => raise ex
  | None => ret tt
  end.

(** The names under which [sqlite3.connect] opens a database private to
    the connection: in memory for [':memory:'], a temporary file for
    ['']. *)
Definition transient (db_name : pystr) : bool :=
  bool_decide (db_name = lit ":memory:") || bool_decide (db_name = []).

(** [CREATE TABLE IF NOT EXISTS web_data (...)]: creates the table when
    the file has neither a table nor a view of that name, and does nothing
    otherwise, whatever the existing one looks like.  In a database
    private to the connection the table is gone when the call that opened
    it ends.  The statement runs outside a transaction and is durable at
    once. *)
Definition create_table_if_not_exists (e : env) (db_name : pystr) : M unit :=
  fun w =>
    match sqlite_fault e AtExecute with
    | Some ex => (Raise ex, w)
    | None =>
        if transient db_name || bool_decide (db_name ∈ views w)
        then (Ret tt, w)
        else
          match tables w !! db_name with
          | Some _ => (Ret tt, w)
          | None =>
              (Ret tt,
               {| tables :=
                    <[db_name := {| declared := web_data_schema;
                                    rows := [];
                                    sequence := 0 |}]> (tables w);
                  views := views w;
                  trace := trace w |})
          end
    end.

(** A [str] parameter is bound as UTF-8 text, [None] as NULL. *)
Definition bind_param (v : pyval) : outcome sqlval :=
  match v with
  | PyNone => Ret None
  | PyStr s =>
      match encode s with
      | Some _ => Ret (Some s)
      | None => Raise (Exn UnicodeEncodeError (lit "surrogates not allowed"))
      end
  end.

(** The REPLACE conflict resolution on one table: the rows that break a
    declared uniqueness constraint against the new row are deleted, then
    the new row is added with the next [id]. *)
Definition replace_into (t : table)
    (v_title v_content v_url v_timestamp v_hash : sqlval) : table :=
  let new := {| id := sequence t + 1;
                title := v_title;
                content := v_content;
                url := v_url;
                timestamp := v_timestamp;
                data_hash := v_hash |} in
  {| declared := declared t;
     rows := filter (fun old => conflicts (declared t) new old = false)
                    (rows t) ++ [new];
     sequence := sequence t + 1 |}.

(** [INSERT OR REPLACE INTO web_data (title, content, url, timestamp,
    data_hash) VALUES (?, ?, ?, ?, ?)] inside the connection's
    transaction.  Returns the table as it will be once committed. *)
Definition insert_or_replace (e : env) (db_name : pystr)
    (p_title p_content p_url p_timestamp p_hash : pyval) : M table :=
  match sqlite_fault e AtExecute with
  | Some ex => raise ex
  | None =>
      t <- (fun w =>
              match tables w !! db_name with
              | Some t => (Ret t, w)
              | None =>
                  (Raise (Exn SqliteError (lit "no such table: web_data")),
                   w)
              end) ;;
      v_title <- lift (bind_param p_title) ;;
      v_content <- lift (bind_param p_content) ;;
      v_url <- lift (bind_param p_url) ;;
      v_timestamp <- lift (bind_param p_timestamp) ;;
      v_hash <- lift (bind_param p_hash) ;;
      if sequence t =? max_rowid
      then raise (Exn SqliteError (lit "database or disk is full"))
      else ret (replace_into t v_title v_content v_url v_timestamp v_hash)
  end.

(** [conn.commit()]: makes the pending table durable. *)
Definition commit (e : env) (db_name : pystr) (pending : option table)
    : M unit :=
  fun w =>
    match sqlite_fault e AtCommit with
    | Some ex => (Raise ex, w)
    | None =>
        match pending with
        | None => (Ret tt, w)
        | Some t =>
            (Ret tt,
             {| tables := <[db_name := t]> (tables w);
                views := views w;
                trace := trace w |})
        end
    end.

End Sqlite.

(** ** The scraper: [class WebScraper] *)

Module WebScraper.

(** The instance: [self.db_name] ([self.logger] is the process-wide
    logger, whose output is the [trace] of the world). *)
Record WebScraper := Mkscraper { db_name : pystr }.

(** The default of [__init__]'s [db_name]. *)
Definition default_db_name : pystr := lit "web_data.db".

(** [setup_logging]: configures the process-wide logger; nothing the
    outside observes until a message is logged. *)
Definition setup_logging (self : WebScraper) : M unit := ret tt.

(** [setup_database] *)
Definition setup_database (e : env) (self : WebScraper) : M unit :=
  try_except
    (Sqlite.connect e (db_name self) ;;
     Sqlite.create_table_if_not_exists e (db_name self) ;;
     Sqlite.commit e (db_name self) None ;;
     logger_info (lit "Database setup completed successfully"))
    is_Exception
    (fun ex =>
       logger_error (lit "Database setup failed: " ++ exn_str ex) ;;
       raise ex).

(** [__init__] *)
Definition init (e : env) (name : pystr) : M WebScraper :=
  let self := {| db_name := name |} in
  setup_logging self ;;
  setup_database e self ;;
  ret self.

(** [response.raise_for_status()]: [HTTPError] for a 4xx or 5xx status. *)
Definition raise_for_status (r : Response) : M unit :=
  if (400 <=? status_code r) && (status_code r <? 600)
  then raise (Exn HTTPError (lit "HTTP error status"))
  else ret tt.

(** [extract_data] *)
Definition extract_data (e : env) (self : WebScraper) (u : pystr)
    : M (option dict) :=
  try_except
    (logger_info (lit "Extracting data from: " ++ u) ;;
     response <- (emit (HttpGet u) ;; lift (requests_get e u)) ;;
     raise_for_status response ;;
     soup <- lift (html_parser e (body response)) ;;
     let data : dict :=
       <["url" := PyStr u]>
       (<["title" := match soup_title soup with
                     | Some t => tag_string t
                     | None => PyStr []
                     end]>
       (<["content" := PyStr (slice_to 1000 (get_text soup))]>
       (<["timestamp" := PyStr (datetime_now e)]> ∅))) in
     logger_info (lit "Successfully extracted data from: " ++ u) ;;
     ret (Some data))
    is_RequestException
    (fun ex =>
       logger_error (lit "Failed to extract data from " ++ u ++ lit ": "
                     ++ exn_str ex) ;;
       ret None).

(** Truth value of a [dict] or [None]: [None] and the empty dict are
    false. *)
Definition truthy (data : option dict) : bool :=
  match data with
  | None => false
  | Some d => negb (bool_decide (d = ∅))
  end.

(** [data[key]] *)
Definition getitem (data : dict) (key : string) : M pyval :=
  match data !! key with
  | Some v => ret v
  | None => raise (Exn KeyError (lit "'" ++ lit key ++ lit "'"))
  end.

(** The receiver of a [str] method call such as [v.strip()]. *)
Definition as_str (v : pyval) (method : string) : M pystr :=
  match v with
  | PyStr s => ret s
  | PyNone =>
      raise (Exn AttributeError
               (lit "'NoneType' object has no attribute '" ++ lit method
                ++ lit "'"))
  end.

(** [f"{v}"] *)
Definition format (v : pyval) : pystr :=
  match v with
  | PyStr s => s
  | PyNone => lit "None"
  end.

(** [text.encode()] *)
Definition str_encode (text : pystr) : M (list Z) :=
  match encode text with
  | Some bs => ret bs
  | None => raise (Exn UnicodeEncodeError (lit "surrogates not allowed"))
  end.

(** The fingerprint of [transform_data]:
    [hashlib.md5(f"{url}{content[:100]}".encode()).hexdigest()]. *)
Definition fingerprint (u : pyval) (cleaned_content : pystr) : M pystr :=
  bs <- str_encode (format u ++ slice_to 100 cleaned_content) ;;
  ret (MD5.hexdigest bs).

(** [transform_data] *)
Definition transform_data (self : WebScraper) (data : option dict)
    : M (option dict) :=
  if negb (truthy data) then ret None
  else
    let d := default ∅ data in
    try_except
      (v_title <- getitem d "title" ;;
       s_title <- as_str v_title "strip" ;;
       v_content <- getitem d "content" ;;
       s_content <- as_str v_content "split" ;;
       v_url <- getitem d "url" ;;
       v_timestamp <- getitem d "timestamp" ;;
       let cleaned_content := join (lit " ") (split s_content) in
       let cleaned_data : dict :=
         <["title" := PyStr (strip s_title)]>
         (<["content" := PyStr cleaned_content]>
         (<["url" := v_url]>
         (<["timestamp" := v_timestamp]> ∅))) in
       data_hash <- fingerprint v_url cleaned_content ;;
       let cleaned_data := <["data_hash" := PyStr data_hash]> cleaned_data in
       v_url' <- getitem d "url" ;;
       logger_info (lit "Successfully transformed data for: "
                    ++ format v_url') ;;
       ret (Some cleaned_data))
      is_Exception
      (fun ex =>
         logger_error (lit "Transformation failed: " ++ exn_str ex) ;;
         ret None).

(** [load_data] *)
Definition load_data (e : env) (self : WebScraper) (data : option dict)
    : M bool :=
  if negb (truthy data) then ret false
  else
    let d := default ∅ data in
    try_except
      (Sqlite.connect e (db_name self) ;;
       v_title <- getitem d "title" ;;
       v_content <- getitem d "content" ;;
       v_url <- getitem d "url" ;;
       v_timestamp <- getitem d "timestamp" ;;
       v_hash <- getitem d "data_hash" ;;
       pending <- Sqlite.insert_or_replace e (db_name self)
                    v_title v_content v_url v_timestamp v_hash ;;
       Sqlite.commit e (db_name self) (Some pending) ;;
       v_url' <- getitem d "url" ;;
       logger_info (lit "Successfully loaded data for: "
                    ++ format v_url') ;;
       ret true)
      is_Exception
      (fun ex =>
         logger_error (lit "Load operation failed: " ++ exn_str ex) ;;
         ret false).

(** [run_pipeline], over the three stage methods it reaches through
    [self] (a subclass or a test double may replace them). *)
Definition run_pipeline_with
    (extract : pystr -> M (option dict))
    (transform : option dict -> M (option dict))
    (load : option dict -> M bool)
    (u : pystr) : M bool :=
  try_except
    (raw_data <- extract u ;;
     if negb (truthy raw_data) then ret false
     else
       transformed_data <- transform raw_data ;;
       if negb (truthy transformed_data) then ret false
       else
         success <- load transformed_data ;;
         ret success)
    is_Exception
    (fun ex =>
       logger_error (lit "Pipeline failed for " ++ u ++ lit ": "
                     ++ exn_str ex) ;;
       ret false).

(** [run_pipeline] of the class as written. *)
Definition run_pipeline (e : env) (self : WebScraper) (u : pystr) : M bool :=
  run_pipeline_with (extract_data e self) (transform_data self)
                    (load_data e self) u.

End WebScraper.

(** ** The driver: [main.py] *)

Module Main.

Import WebScraper.

(** The URL list of [main]. *)
Definition urls : list pystr :=
  [lit "https://python.org"; lit "https://github.com"].

(** The line [main] prints for one URL. *)
Definition report (u : pystr) (success : bool) : pystr :=
  if success then lit "Successfully processed: " ++ u
  else lit "Failed to process: " ++ u.

(** The loop [for url in urls: ...]: the [i]-th call of the process
    meets the answers [env_at i].  The result is what was printed, line
    by line. *)
Fixpoint process_urls (env_at : nat -> env) (scraper : WebScraper)
    (i : nat) (us : list pystr) : M (list pystr) :=
  match us with
  | [] => ret []
  | u :: rest =>
      success <- run_pipeline (env_at i) scraper u ;;
      printed <- process_urls env_at scraper (S i) rest ;;
      ret (report u success :: printed)
  end.

(** [main()]: the constructor meets [env_init]. *)
Definition main (env_init : env) (env_at : nat -> env) : M (list pystr) :=
  scraper <- init env_init default_db_name ;;
  process_urls env_at scraper 0 urls.

End Main.

(** * Definitions used in the statements *)

Import WebScraper.

(** What [transform_data] returns on a dict: the cleaned record, when
    all four fields are there, title and content are strings and the
    hashed text can be encoded. *)
Definition cleaned (d : dict) : option dict :=
  match d !! "title", d !! "content", d !! "url", d !! "timestamp" with
  | Some (PyStr t), Some (PyStr c), Some u, Some ts =>
      let cc := join (lit " ") (split c) in
      match encode (format u ++ slice_to 100 cc) with
      | Some bs =>
          Some (<["data_hash" := PyStr (MD5.hexdigest bs)]>
                (<["title" := PyStr (strip t)]>
                (<["content" := PyStr cc]>
                (<["url" := u]>
                (<["timestamp" := ts]> ∅)))))
      | None => None
      end
  | _, _, _, _ => None
  end.

(** The status codes [raise_for_status] rejects. *)
Definition error_status (r : Response) : bool :=
  (400 <=? status_code r) && (status_code r <? 600).

(** The raw record built from a parsed document. *)
Definition raw_record (e : env) (u : pystr) (soup : Soup) : dict :=
  <["url" := PyStr u]>
  (<["title" := match soup_title soup with
                | Some t => tag_string t
                | None => PyStr []
                end]>
  (<["content" := PyStr (slice_to 1000 (get_text soup))]>
  (<["timestamp" := PyStr (datetime_now e)]> ∅))).

(** What [extract_data] does with an exception of its body: only a
    [RequestException] becomes an absent result. *)
Definition contained (ex : exn) : outcome (option dict) :=
  if is_RequestException ex then Ret None else Raise ex.

(** ** Concrete situations used to exercise the statements *)

Module Scenario.

Definition example_url : pystr := lit "https://example.test".

(** The page [<html><title>T</title><body>hello world</body></html>]. *)
Definition page : list Z :=
  lit "<html><title>T</title><body>hello world</body></html>".

Definition page_soup : Soup :=
  {| soup_title := Some {| tag_string := PyStr (lit "T") |};
     get_text := lit "Thello world" |}.

Definition no_fault : sql_step -> option exn := fun _ => None.

(** The endpoint serves [page] with status 200 and storage works. *)
Definition ok_env : env :=
  {| requests_get := fun _ => Ret {| status_code := 200; body := page |};
     html_parser := fun _ => Ret page_soup;
     datetime_now := lit "2024-01-01T00:00:00";
     sqlite_fault := no_fault |}.

(** The same answers one second later. *)
Definition ok_env_later : env :=
  {| requests_get := requests_get ok_env;
     html_parser := html_parser ok_env;
     datetime_now := lit "2024-01-01T00:00:01";
     sqlite_fault := no_fault |}.

(** The endpoint answers 404. *)
Definition not_found_env : env :=
  {| requests_get := fun _ => Ret {| status_code := 404; body := [] |};
     html_parser := html_parser ok_env;
     datetime_now := datetime_now ok_env;
     sqlite_fault := no_fault |}.

(** The endpoint answers 304 Not Modified with an empty body. *)
Definition not_modified_env : env :=
  {| requests_get := fun _ => Ret {| status_code := 304; body := [] |};
     html_parser := fun _ => Ret {| soup_title := None; get_text := [] |};
     datetime_now := datetime_now ok_env;
     sqlite_fault := no_fault |}.

(** The endpoint answers 200 with the body [<![>], a marked section
    without a name, which [html.parser] refuses: [bs4] raises
    [ParserRejectedMarkup]. *)
Definition rejected_markup_env : env :=
  {| requests_get := fun _ =>
       Ret {| status_code := 200; body := lit "<![>" |};
     html_parser := fun _ =>
       Raise (Exn (OtherException "ParserRejectedMarkup")
                  (lit "expected name token at '<![>'"));
     datetime_now := datetime_now ok_env;
     sqlite_fault := no_fault |}.




(** Storage fails when the connection is opened. *)
Definition locked_env : env :=
  {| requests_get := requests_get ok_env;
     html_parser := html_parser ok_env;
     datetime_now := datetime_now ok_env;
     sqlite_fault := fun s =>
       match s with
       | AtConnect => Some (Exn SqliteError (lit "unable to open database file"))
       | _ => None
       end |}.

Definition scraper : WebScraper := {| db_name := default_db_name |}.

(** No database file yet, nothing logged. *)
Definition fresh_world : world :=
  {| tables := ∅; views := ∅; trace := [] |}.

(** The world once [WebScraper()] has been constructed in [fresh_world]. *)
Definition ready_world : world := (init ok_env default_db_name fresh_world).2.

(** A database file that already holds a [web_data] table declared
    without UNIQUE columns. *)
Definition foreign_world : world :=
  {| tables := {[ default_db_name :=
                    {| declared := {| unique_url := false;
                                      unique_data_hash := false |};
                       rows := [];
                       sequence := 0 |} ]};
     views := ∅;
     trace := [] |}.

End Scenario.

(** A fetch that fails the way [extract_data] expects: the request raises
    a [RequestException] (network error, timeout), or the response carries
    a status that [raise_for_status] rejects (4xx, 5xx). *)
Definition fetch_fails (e : env) (u : pystr) : Prop :=
  (exists ex, requests_get e u = Raise ex /\ is_RequestException ex = true)
  \/ (exists r, requests_get e u = Ret r /\ 400 <= status_code r < 600).



(** ** The spec's words for whitespace normalisation *)

Module SpecWords.

(** The spec's words, "every run of whitespace collapsed to a single
    space": each maximal run of whitespace characters is replaced by one
    space; [in_run] tells that the previous character was whitespace. *)
Fixpoint collapse_from (in_run : bool) (s : pystr) : pystr :=
  match s with
  | [] => []
  | c :: s' =>
      if isspace c
      then if in_run then collapse_from true s'
           else space :: collapse_from true s'
      else c :: collapse_from false s'
  end.

Definition collapse_runs (s : pystr) : pystr := collapse_from false s.

(** The spec's words, "leading and trailing whitespace removed": [r] is
    [s] without a whitespace prefix and a whitespace suffix, and [r]
    neither starts nor ends with whitespace. *)
Definition outer_whitespace_removed (s r : pystr) : Prop :=
  exists lead trail,
    s = lead ++ r ++ trail /\
    forallb isspace lead = true /\ forallb isspace trail = true /\
    (forall c, head r = Some c -> isspace c = false) /\
    (forall c, last r = Some c -> isspace c = false).

End SpecWords.

Import SpecWords.

(** The record with the given four fields. *)
Definition record (u t c ts : pystr) : dict :=
  <["url" := PyStr u]>
  (<["title" := PyStr t]>
  (<["content" := PyStr c]>
  (<["timestamp" := PyStr ts]> ∅))).

(** The raw record of the example page and what the transformer makes of
    it. *)
Definition example_record : dict :=
  record Scenario.example_url (lit "T") (lit "Thello world")
    (lit "2024-01-01T00:00:00").

Definition example_cleaned : dict := default ∅ (cleaned example_record).

(** The content of the spec's example: a, two newlines, two spaces, b, a
    tab, c. *)
Definition example_content : pystr := [97; 10; 10; 32; 32; 98; 9; 99].

(** The field [key] of the record a stage returned, if it returned one. *)
Definition returned_field (key : string) (o : outcome (option dict))
    : option pyval :=
  match o with
  | Ret (Some r) => r !! key
  | _ => None
  end.

(** The cleaned content of [transform_data]: [' '.join(content.split())]. *)
Definition clean_content (c : pystr) : pystr := join (lit " ") (split c).

(** Two contents of 101 characters that differ in the last one. *)
Definition long_content (final : Z) : pystr := replicate 100 97 ++ [final].

(** The stored rows of a table whose url column is [u]. *)
Definition rows_for (u : pystr) (t : table) : list row :=
  filter (fun r => url r = Some u) (rows t).

(** The column value a Python value is stored as. *)
Definition to_sql (v : pyval) : sqlval :=
  match v with
  | PyNone => None
  | PyStr s => Some s
  end.

(** The first point at which the storage engine fails during a call. *)
Definition first_fault (e : env) : option exn :=
  match sqlite_fault e AtConnect with
  | Some ex => Some ex
  | None =>
      match sqlite_fault e AtExecute with
      | Some ex => Some ex
      | None => sqlite_fault e AtCommit
      end
  end.

(** The table [setup_database] creates. *)
Definition new_table : table :=
  {| declared := Sqlite.web_data_schema; rows := []; sequence := 0 |}.

(** ** Definitions for the further properties *)

(** The URLs requested in a stretch of events, in order. *)
Definition http_gets (evs : list event) : list pystr :=
  omap (fun ev => match ev with HttpGet u => Some u | _ => None end) evs.

(** The database files opened in a stretch of events, in order. *)
Definition connects (evs : list event) : list pystr :=
  omap (fun ev => match ev with SqlConnect n => Some n | _ => None end) evs.

(** The cleaned record a run hands to the loader, if the fetch, the
    parse and the transformation all yield one. *)
Definition cleaned_page (e : env) (u : pystr) : option dict :=
  match requests_get e u with
  | Ret r =>
      if error_status r then None
      else match html_parser e (body r) with
           | Ret soup => cleaned (raw_record e u soup)
           | Raise _ => None
           end
  | Raise _ => None
  end.

(** The five fields [load_data] reads. *)
Definition record_fields : list string :=
  ["title"; "content"; "url"; "timestamp"; "data_hash"].

(** A value SQLite can bind: [None], or a string UTF-8 can encode. *)
Definition storable (v : pyval) : bool :=
  match v with
  | PyNone => true
  | PyStr s => match encode s with Some _ => true | None => false end
  end.

(** A record [load_data] can hand to SQLite: all five fields present and
    storable. *)
Definition loadable (d : dict) : bool :=
  forallb (fun k => match d !! k with
                    | Some v => storable v
                    | None => false
                    end) record_fields.

(** Whether a load goes through: a non-empty loadable record, no storage
    fault, and a table that exists and is not full. *)
Definition load_goes_through (e : env) (self : WebScraper)
    (data : option dict) (w : world) : bool :=
  truthy data
  && match first_fault e with None => true | Some _ => false end
  && match tables w !! db_name self with
     | Some t => loadable (default ∅ data)
                 && negb (sequence t =? Sqlite.max_rowid)
     | None => false
     end.

(** A lowercase hexadecimal digit. *)
Definition is_hex_digit (c : Z) : bool :=
  (48 <=? c) && (c <=? 57) || (97 <=? c) && (c <=? 102).

(** A word: a non-empty string without whitespace. *)
Definition word (t : pystr) : Prop :=
  t <> [] /\ Forall (fun c => isspace c = false) t.

(** The characters of a string that are not whitespace. *)
Definition non_space (s : list Z) : list Z :=
  filter (fun c => isspace c = false) s.

(** A string of whitespace only. *)
Definition blank (s : list Z) : Prop := Forall (fun c => isspace c = true) s.

(** [rest] is what follows a word in a string whose further words are
    [words]: whitespace only when there are none; and else at least one
    whitespace character, the next word, and what follows that. *)
Fixpoint followed_by (words : list (list Z)) (rest : list Z) : Prop :=
  match words with
  | [] => blank rest
  | t :: words' =>
      exists gap rest',
        rest = gap ++ t ++ rest' /\ gap <> [] /\ blank gap /\ word t /\
        followed_by words' rest'
  end.

(** [words] are the maximal runs of non-whitespace characters of [s], in
    order: [s] is made of these words and of whitespace, of which there
    is some between any two words, and only there need be. *)
Definition maximal_runs (s : list Z) (words : list (list Z)) : Prop :=
  match words with
  | [] => blank s
  | t :: words' =>
      exists lead rest,
        s = lead ++ t ++ rest /\ blank lead /\ word t /\
        followed_by words' rest
  end.

(** Two stored rows, the first inserted before the second, respect the
    table's constraints: increasing ids, different urls, different
    fingerprints (NULL never collides). *)
Definition compatible (r1 r2 : row) : bool :=
  (id r1 <? id r2)
  && negb (Sqlite.same_text (url r1) (url r2))
  && negb (Sqlite.same_text (data_hash r1) (data_hash r2)).

(** Every row stands in [R] to every later row. *)
Fixpoint pairwise (R : row -> row -> bool) (l : list row) : bool :=
  match l with
  | [] => true
  | r :: l' => forallb (R r) l' && pairwise R l'
  end.

(** A well-formed table: declared with both UNIQUE columns, rows pairwise
    compatible, no id above the recorded sequence. *)
Definition table_ok (t : table) : bool :=
  unique_url (declared t) && unique_data_hash (declared t)
  && pairwise compatible (rows t)
  && forallb (fun r => id r <=? sequence t) (rows t).

(** Every table of the world is well formed. *)
Definition world_ok (w : world) : Prop :=
  forall name t, tables w !! name = Some t -> table_ok t = true.

(** The title [extract_data] reads off a parsed document. *)
Definition title_of (soup : Soup) : pyval :=
  match soup_title soup with
  | Some t => tag_string t
  | None => PyStr []
  end.

(** The content [transform_data] makes of a parsed document: the first
    1000 characters of its text, cleaned. *)
Definition page_content (soup : Soup) : pystr :=
  clean_content (slice_to 1000 (get_text soup)).

(** The bytes that are hashed for a page. *)
Definition hashed_text (u : pystr) (soup : Soup) : pystr :=
  u ++ slice_to 100 (page_content soup).

(** A table with three rows: one for the example URL with an old
    fingerprint, one for another URL with the fingerprint of the example
    page, one unrelated. *)
Definition crowded_table : table :=
  {| declared := Sqlite.web_data_schema;
     rows :=
       [ {| id := 1; title := Some (lit "old"); content := Some (lit "old");
            url := Some Scenario.example_url;
            timestamp := Some (lit "2023-12-31T00:00:00");
            data_hash := Some (lit "0123456789abcdef0123456789abcdef") |};
         {| id := 2; title := None; content := Some (lit "other");
            url := Some (lit "https://other.test");
            timestamp := Some (lit "2023-12-31T00:00:01");
            data_hash := Some (lit "735ab94d88d955af9c74222902ba9cc7") |};
         {| id := 3; title := Some (lit "third"); content := Some [];
            url := Some (lit "https://third.test");
            timestamp := Some (lit "2023-12-31T00:00:02");
            data_hash := Some (lit "ffffffffffffffffffffffffffffffff") |} ];
     sequence := 3 |}.

Definition crowded_world : world :=
  {| tables := {[ default_db_name := crowded_table ]};
     views := ∅;
     trace := [] |}.

(** A page with an empty title element. *)
Definition untitled_env : env :=
  {| requests_get := fun _ =>
       Ret {| status_code := 200;
              body := lit "<html><title></title><body>x</body></html>" |};
     html_parser := fun _ =>
       Ret {| soup_title := Some {| tag_string := PyNone |};
              get_text := lit "x" |};
     datetime_now := lit "2024-01-01T00:00:00";
     sqlite_fault := Scenario.no_fault |}.

(** An endpoint that serves an untitled page with the given text. *)
Definition text_env (text : pystr) (now : pystr) : env :=
  {| requests_get := fun _ => Ret {| status_code := 200; body := text |};
     html_parser := fun _ => Ret {| soup_title := None; get_text := text |};
     datetime_now := now;
     sqlite_fault := Scenario.no_fault |}.

(** * Properties *)

Arguments MD5.hexdigest : simpl never.
Arguments lit : simpl never.
Arguments join : simpl never.
Arguments split : simpl never.
Arguments strip : simpl never.
Arguments slice_to : simpl never.
Arguments encode : simpl never.
Arguments Sqlite.transient : simpl never.

(** Unfolds the effect combinators so that a computation reduces. *)
Ltac run_py :=
  unfold run_pipeline, run_pipeline_with, load_data, transform_data,
    extract_data, init, setup_logging, setup_database, fingerprint, str_encode, getitem,
    as_str, raise_for_status, Sqlite.connect, Sqlite.commit,
    Sqlite.insert_or_replace, Sqlite.create_table_if_not_exists,
    logger_info, logger_error, emit, lift, try_except, bind, ret, raise
    in *;
  cbn in *.

(** ** Truth values *)

Lemma truthy_insert (k : string) (v : pyval) (d : dict) :
  truthy (Some (<[k := v]> d)) = true.
Proof.
  cbn. apply negb_true_iff, bool_decide_eq_false.
  apply insert_non_empty.
Qed.

(** ** The transformer, case by case *)

Lemma transform_data_result (self : WebScraper) (data : option dict)
    (w : world) :
  (transform_data self data w).1 =
    Ret (if truthy data then cleaned (default ∅ data) else None).
Proof.
  unfold transform_data, cleaned.
  destruct (truthy data) eqn:Ht; cbn; [|done].
  destruct data as [d|]; [|discriminate]. cbn.
  run_py.
  destruct (d !! "title") as [[|t]|]; cbn; try done.
  destruct (d !! "content") as [[|c]|]; cbn; try done.
  destruct (d !! "url") as [u|] eqn:Hu; cbn; try done.
  destruct (d !! "timestamp") as [ts|]; cbn; try done.
  destruct (encode _) as [bs|]; cbn; try done.
Qed.

Lemma transform_data_tables (self : WebScraper) (data : option dict)
    (w : world) :
  tables (transform_data self data w).2 = tables w.
Proof.
  unfold transform_data.
  destruct (truthy data) eqn:Ht; cbn; [|done].
  destruct data as [d|]; [|discriminate]. cbn.
  run_py.
  destruct (d !! "title") as [[|t]|]; cbn; try done.
  destruct (d !! "content") as [[|c]|]; cbn; try done.
  destruct (d !! "url") as [u|] eqn:Hu; cbn; try done.
  destruct (d !! "timestamp") as [ts|]; cbn; try done.
  destruct (encode _) as [bs|]; cbn; try done.
Qed.

(** ** The loader, case by case *)

(** Splits on the innermost scrutinee that blocks reduction. *)
Ltac split_match :=
  match goal with
  | |- context [match ?x with _ => _ end] =>
      lazymatch x with
      | context [match _ with _ => _ end] => fail
      | _ => destruct x eqn:?; cbn in *
      end
  | H : context [match ?x with _ => _ end] |- _ =>
      lazymatch x with
      | context [match _ with _ => _ end] => fail
      | _ => destruct x eqn:?; cbn in *
      end
  end.

(** The loader never raises. *)
Lemma load_data_returns (e : env) (self : WebScraper) (data : option dict)
    (w : world) :
  exists b, (load_data e self data w).1 = Ret b.
Proof.
  unfold load_data.
  destruct (truthy data) eqn:Ht; cbn; [|by eexists].
  run_py. repeat split_match; by eexists.
Qed.

(** A load that reports failure leaves every table as it was. *)
Lemma load_data_false_tables (e : env) (self : WebScraper)
    (data : option dict) (w : world) :
  (load_data e self data w).1 = Ret false ->
  tables (load_data e self data w).2 = tables w.
Proof.
  unfold load_data.
  destruct (truthy data) eqn:Ht; cbn; [|done].
  run_py. repeat split_match; intros; simplify_eq; done.
Qed.

(** A load that reports success has replaced into the table of the
    scraper's database the row made of the record's five fields. *)
Lemma load_data_true (e : env) (self : WebScraper) (data : option dict)
    (w : world) :
  (load_data e self data w).1 = Ret true ->
  exists d t p_title p_content p_url p_timestamp p_hash
         v_title v_content v_url v_timestamp v_hash,
    data = Some d /\
    tables w !! db_name self = Some t /\
    d !! "title" = Some p_title /\ Sqlite.bind_param p_title = Ret v_title /\
    d !! "content" = Some p_content /\
    Sqlite.bind_param p_content = Ret v_content /\
    d !! "url" = Some p_url /\ Sqlite.bind_param p_url = Ret v_url /\
    d !! "timestamp" = Some p_timestamp /\
    Sqlite.bind_param p_timestamp = Ret v_timestamp /\
    d !! "data_hash" = Some p_hash /\ Sqlite.bind_param p_hash = Ret v_hash /\
    tables (load_data e self data w).2 =
      <[db_name self :=
          Sqlite.replace_into t v_title v_content v_url v_timestamp v_hash]>
        (tables w).
Proof.
  unfold load_data.
  destruct (truthy data) eqn:Ht; cbn; [|done].
  destruct data as [d|]; [|discriminate]. cbn.
  run_py. repeat split_match; intros; simplify_eq.
  repeat eexists; eauto.
Qed.

(** ** The extractor, case by case *)

Lemma extract_data_result (e : env) (self : WebScraper) (u : pystr)
    (w : world) :
  (extract_data e self u w).1 =
    match requests_get e u with
    | Raise ex => contained ex
    | Ret r =>
        if error_status r then Ret None
        else match html_parser e (body r) with
             | Raise ex => contained ex
             | Ret soup => Ret (Some (raw_record e u soup))
             end
    end.
Proof.
  unfold contained, error_status, raw_record. run_py.
  repeat split_match; simplify_eq; done.
Qed.

Lemma extract_data_tables (e : env) (self : WebScraper) (u : pystr)
    (w : world) :
  tables (extract_data e self u w).2 = tables w.
Proof. run_py. repeat split_match; done. Qed.

Lemma raw_record_truthy (e : env) (u : pystr) (soup : Soup) :
  truthy (Some (raw_record e u soup)) = true.
Proof. apply truthy_insert. Qed.

(** ** The orchestrator over arbitrary stages *)

Section Stages.

Variable extract : pystr -> M (option dict).
Variable transform : option dict -> M (option dict).
Variable load : option dict -> M bool.

Lemma run_pipeline_with_returns (u : pystr) (w : world) :
  exists b, (run_pipeline_with extract transform load u w).1 = Ret b.
Proof.
  run_py. destruct (extract u w) as [[raw|ex] w1]; cbn; [|by eexists].
  destruct (truthy raw); cbn; [|by eexists].
  destruct (transform raw w1) as [[td|ex] w2]; cbn; [|by eexists].
  destruct (truthy td); cbn; [|by eexists].
  destruct (load td w2) as [[b|ex] w3]; cbn; by eexists.
Qed.

Lemma run_extract_absent (u : pystr) (w : world) (raw : option dict)
    (w1 : world) :
  extract u w = (Ret raw, w1) -> truthy raw = false ->
  run_pipeline_with extract transform load u w = (Ret false, w1).
Proof. intros He Ht. run_py. by rewrite He; cbn; rewrite Ht. Qed.

Lemma run_transform_absent (u : pystr) (w : world) (raw : option dict)
    (w1 : world) (td : option dict) (w2 : world) :
  extract u w = (Ret raw, w1) -> truthy raw = true ->
  transform raw w1 = (Ret td, w2) -> truthy td = false ->
  run_pipeline_with extract transform load u w = (Ret false, w2).
Proof.
  intros He Ht Htr Htd. run_py.
  by rewrite He; cbn; rewrite Ht; cbn; rewrite Htr; cbn; rewrite Htd.
Qed.

Lemma run_load_result (u : pystr) (w : world) (raw : option dict)
    (w1 : world) (td : option dict) (w2 : world) (b : bool) (w3 : world) :
  extract u w = (Ret raw, w1) -> truthy raw = true ->
  transform raw w1 = (Ret td, w2) -> truthy td = true ->
  load td w2 = (Ret b, w3) ->
  run_pipeline_with extract transform load u w = (Ret b, w3).
Proof.
  intros He Ht Htr Htd Hl. run_py.
  by rewrite He; cbn; rewrite Ht; cbn; rewrite Htr; cbn; rewrite Htd; cbn;
     rewrite Hl.
Qed.

(** A run that reports success went through all three stages. *)
Lemma run_true_inv (u : pystr) (w : world) (w3 : world) :
  run_pipeline_with extract transform load u w = (Ret true, w3) ->
  exists raw w1 td w2,
    extract u w = (Ret raw, w1) /\ truthy raw = true /\
    transform raw w1 = (Ret td, w2) /\ truthy td = true /\
    load td w2 = (Ret true, w3).
Proof.
  unfold run_pipeline_with, try_except, bind, ret.
  destruct (extract u w) as [[raw|ex] w1] eqn:He; cbn; [|done].
  destruct (truthy raw) eqn:Ht; cbn; [|done].
  destruct (transform raw w1) as [[td|ex] w2] eqn:Htr; cbn; [|done].
  destruct (truthy td) eqn:Htd; cbn; [|done].
  destruct (load td w2) as [[b|ex] w3'] eqn:Hl; cbn; [|done].
  intros [= -> ->]. by exists raw, w1, td, w2.
Qed.

End Stages.

(** ** The orchestrator *)

(** C4.  [run_pipeline] never raises: whatever the three stages do, also
    when a stage itself raises, the call returns a boolean; so it does
    for the class as written, for every URL, endpoint, parser and storage
    behaviour. *)
Theorem run_pipeline_never_raises :
  (forall extract transform load (u : pystr) (w : world),
     exists b, (run_pipeline_with extract transform load u w).1 = Ret b) /\
  (forall (e : env) (self : WebScraper) (u : pystr) (w : world),
     exists b, (run_pipeline e self u w).1 = Ret b).
Proof.
  split; intros; apply run_pipeline_with_returns.
Qed.

(** C7.  Absent input: [transform_data(None)] is [None] and
    [load_data(None)] is [False], both without any effect (no storage
    access, not even a log line); and in [run_pipeline] an absent result
    of the extractor or of the transformer, and a [False] of the loader,
    each become the result [False]. *)
Theorem absent_input_propagates (e : env) (self : WebScraper) (w : world) :
  transform_data self None w = (Ret None, w) /\
  load_data e self None w = (Ret false, w) /\
  forall extract transform load (u : pystr),
    (forall w1, extract u w = (Ret None, w1) ->
       run_pipeline_with extract transform load u w = (Ret false, w1)) /\
    (forall raw w1 w2,
       extract u w = (Ret raw, w1) -> truthy raw = true ->
       transform raw w1 = (Ret None, w2) ->
       run_pipeline_with extract transform load u w = (Ret false, w2)) /\
    (forall raw w1 td w2 w3,
       extract u w = (Ret raw, w1) -> truthy raw = true ->
       transform raw w1 = (Ret td, w2) -> truthy td = true ->
       load td w2 = (Ret false, w3) ->
       run_pipeline_with extract transform load u w = (Ret false, w3)).
Proof.
  split; [done|]. split; [done|]. intros extract transform load u.
  split; [|split].
  - intros w1 He. by eapply run_extract_absent.
  - intros raw w1 w2 He Ht Htr. by eapply run_transform_absent.
  - intros raw w1 td w2 w3 He Ht Htr Htd Hl. by eapply run_load_result.
Qed.

(** C7, exercised: a transformer that yields [None] on the record of the
    example page makes the run return [False], and the loader is not
    reached. *)
Lemma absent_input_propagates_witness :
  run_pipeline_with
    (extract_data Scenario.ok_env Scenario.scraper)
    (fun _ => ret None)
    (load_data Scenario.ok_env Scenario.scraper)
    Scenario.example_url Scenario.ready_world
  = (Ret false,
     (extract_data Scenario.ok_env Scenario.scraper Scenario.example_url
        Scenario.ready_world).2).
Proof.
  refine (proj1 (proj2 (proj2 (proj2 (absent_input_propagates
            Scenario.ok_env Scenario.scraper Scenario.ready_world))
            _ _ _ Scenario.example_url))
          (Some (raw_record Scenario.ok_env Scenario.example_url
                   Scenario.page_soup)) _ _ _ _ _).
  - vm_compute. reflexivity.
  - vm_compute. reflexivity.
  - reflexivity.
Defined.

(** ** Failures of the extractor *)

Lemma fetch_fails_absent (e : env) (self : WebScraper) (u : pystr)
    (w : world) :
  fetch_fails e u -> (extract_data e self u w).1 = Ret None.
Proof.
  intros Hf. rewrite extract_data_result.
  destruct Hf as [(ex & -> & Hreq)|(r & -> & Hst)].
  - unfold contained. by rewrite Hreq.
  - unfold error_status.
    replace (400 <=? status_code r) with true by (symmetry; lia).
    replace (status_code r <? 600) with true by (symmetry; lia). done.
Qed.

(** C2, as the code has it.  When the request raises a request error
    (network error, timeout) or the response has a 4xx or 5xx status,
    [extract_data] returns [None] and leaves the tables as they were, and
    [run_pipeline] returns [False] in the world the extractor left,
    whatever the transformer and the loader are: neither is invoked. *)
Theorem extract_failure_short_circuits (e : env) (self : WebScraper)
    (u : pystr) (w : world) :
  fetch_fails e u ->
  exists w1,
    extract_data e self u w = (Ret None, w1) /\
    tables w1 = tables w /\
    (forall transform load,
       run_pipeline_with (extract_data e self) transform load u w
       = (Ret false, w1)) /\
    run_pipeline e self u w = (Ret false, w1).
Proof.
  intros Hf. exists (extract_data e self u w).2.
  assert (Hx : extract_data e self u w
               = (Ret None, (extract_data e self u w).2)).
  { rewrite (surjective_pairing (extract_data e self u w)) at 1.
    f_equal. by apply fetch_fails_absent. }
  split; [done|]. split; [apply extract_data_tables|].
  split; [intros transform load|unfold run_pipeline];
    by eapply run_extract_absent.
Qed.

(** C2, exercised on a 404 answer. *)
Lemma extract_failure_short_circuits_witness :
  exists w1,
    extract_data Scenario.not_found_env Scenario.scraper
      Scenario.example_url Scenario.ready_world = (Ret None, w1) /\
    tables w1 = tables Scenario.ready_world /\
    (forall transform load,
       run_pipeline_with
         (extract_data Scenario.not_found_env Scenario.scraper)
         transform load Scenario.example_url Scenario.ready_world
       = (Ret false, w1)) /\
    run_pipeline Scenario.not_found_env Scenario.scraper
      Scenario.example_url Scenario.ready_world = (Ret false, w1).
Proof.
  apply extract_failure_short_circuits.
  right. eexists. split; [reflexivity|]. cbn. lia.
Defined.

(** C2 as stated fails: a response outside 2xx that is not an error
    status (here 304) is parsed like a success; the extractor returns a
    record, the run returns [True] and a row is stored. *)
Lemma non_2xx_response_is_processed :
  let e := Scenario.not_modified_env in
  let w := Scenario.ready_world in
  let u := Scenario.example_url in
  (exists r, requests_get e u = Ret r /\
             ~ (200 <= status_code r < 300)) /\
  (extract_data e Scenario.scraper u w).1
    = Ret (Some (raw_record e u {| soup_title := None; get_text := [] |})) /\
  (run_pipeline e Scenario.scraper u w).1 = Ret true /\
  (rows <$> tables w !! default_db_name) = Some [] /\
  (length ∘ rows <$>
     tables (run_pipeline e Scenario.scraper u w).2 !! default_db_name)
    = Some 1%nat.
Proof.
  cbv zeta. split; [|split; [|split; [|split]]].
  - eexists. split; [reflexivity|]. cbn. lia.
  - vm_compute. reflexivity.
  - vm_compute. reflexivity.
  - vm_compute. reflexivity.
  - vm_compute. reflexivity.
Qed.

(** An exception that leaves [extract_data] is not a request error; it
    comes from the request or from the parser. *)
Lemma extract_data_raises (e : env) (self : WebScraper) (u : pystr)
    (w : world) (ex : exn) :
  (extract_data e self u w).1 = Raise ex ->
  is_RequestException ex = false /\
  (requests_get e u = Raise ex \/
   exists r, requests_get e u = Ret r /\ html_parser e (body r) = Raise ex).
Proof.
  intros Hx. rewrite extract_data_result in Hx. unfold contained in Hx.
  destruct (requests_get e u) as [r|ex1] eqn:Hr.
  - destruct (error_status r); [done|].
    destruct (html_parser e (body r)) as [soup|ex2] eqn:Hp; [done|].
    destruct (is_RequestException ex2) eqn:Hreq; [done|].
    injection Hx as ->. split; [done|]. right. by exists r.
  - destruct (is_RequestException ex1) eqn:Hreq; [done|].
    injection Hx as ->. split; [done|]. by left.
Qed.

(** C5, as the code has it.  [extract_data] turns into [None] exactly
    the failures that are request errors: an exception of class
    [RequestException] raised by the request or while parsing, and a 4xx
    or 5xx status.  An exception of any other class, raised by the request
    or by the parser on a response whose status is no error (a parse
    failure of the body, for one), is raised by [extract_data] to its
    caller, and nothing else is; it is [run_pipeline] that then returns
    [False]. *)
Theorem extract_contains_request_errors (e : env) (self : WebScraper)
    (u : pystr) (w : world) :
  (fetch_fails e u -> (extract_data e self u w).1 = Ret None) /\
  (forall r ex,
     requests_get e u = Ret r -> html_parser e (body r) = Raise ex ->
     is_RequestException ex = true ->
     (extract_data e self u w).1 = Ret None) /\
  (forall ex,
     requests_get e u = Raise ex ->
     is_RequestException ex = false ->
     (extract_data e self u w).1 = Raise ex /\
     (run_pipeline e self u w).1 = Ret false) /\
  (forall r ex,
     requests_get e u = Ret r ->
     ~ (400 <= status_code r < 600) ->
     html_parser e (body r) = Raise ex ->
     is_RequestException ex = false ->
     (extract_data e self u w).1 = Raise ex /\
     (run_pipeline e self u w).1 = Ret false) /\
  (forall ex,
     (extract_data e self u w).1 = Raise ex ->
     is_RequestException ex = false /\
     (requests_get e u = Raise ex \/
      exists r, requests_get e u = Ret r /\
                html_parser e (body r) = Raise ex) /\
     (run_pipeline e self u w).1 = Ret false).
Proof.
  assert (Hrun : forall ex, (extract_data e self u w).1 = Raise ex ->
                            (run_pipeline e self u w).1 = Ret false).
  { intros ex Hx.
    unfold run_pipeline, run_pipeline_with, try_except, bind.
    by destruct (extract_data e self u w) as [[raw|ex'] w1]. }
  assert (Hget : forall ex, requests_get e u = Raise ex ->
                            is_RequestException ex = false ->
                            (extract_data e self u w).1 = Raise ex).
  { intros ex Hr Hreq. rewrite extract_data_result, Hr.
    unfold contained. by rewrite Hreq. }
  assert (Hparse : forall r ex,
            requests_get e u = Ret r -> ~ (400 <= status_code r < 600) ->
            html_parser e (body r) = Raise ex ->
            is_RequestException ex = false ->
            (extract_data e self u w).1 = Raise ex).
  { intros r ex Hr Hst Hp Hreq. rewrite extract_data_result, Hr, Hp.
    unfold error_status, contained. rewrite Hreq.
    destruct (400 <=? status_code r) eqn:Hlo;
      destruct (status_code r <? 600) eqn:Hhi; cbn; try done. lia. }
  split; [|split; [|split; [|split]]].
  - apply fetch_fails_absent.
  - intros r ex Hr Hp Hreq. rewrite extract_data_result, Hr, Hp.
    unfold contained. rewrite Hreq. by destruct (error_status r).
  - intros ex Hr Hreq. split; [by apply Hget|]. apply (Hrun ex). by apply Hget.
  - intros r ex Hr Hst Hp Hreq. split; [by apply (Hparse r)|].
    apply (Hrun ex). by apply (Hparse r).
  - intros ex Hx.
    destruct (extract_data_raises e self u w ex Hx) as [Hreq Hfrom].
    split; [done|]. split; [done|]. by apply (Hrun ex).
Qed.

(** C5, exercised: the 404 answer is contained, and the parser's
    exception on the body [<![>] is what [extract_data] raises. *)
Lemma extract_contains_request_errors_witness :
  (extract_data Scenario.not_found_env Scenario.scraper
     Scenario.example_url Scenario.ready_world).1 = Ret None /\
  (extract_data Scenario.rejected_markup_env Scenario.scraper
     Scenario.example_url Scenario.ready_world).1
  = Raise (Exn (OtherException "ParserRejectedMarkup")
               (lit "expected name token at '<![>'")) /\
  (run_pipeline Scenario.rejected_markup_env Scenario.scraper
     Scenario.example_url Scenario.ready_world).1 = Ret false.
Proof.
  split.
  - apply (proj1 (extract_contains_request_errors Scenario.not_found_env
                    Scenario.scraper Scenario.example_url
                    Scenario.ready_world)).
    right. eexists. split; [reflexivity|]. cbn. lia.
  - apply (proj1 (proj2 (proj2 (proj2 (extract_contains_request_errors
                    Scenario.rejected_markup_env Scenario.scraper
                    Scenario.example_url Scenario.ready_world))))
             {| status_code := 200; body := lit "<![>" |}).
    + reflexivity.
    + cbn. lia.
    + reflexivity.
    + reflexivity.
Defined.

(** C5 as stated fails: when the parser rejects the body, [extract_data]
    raises to its caller instead of returning [None]. *)
Lemma parse_failure_escapes_extract :
  (extract_data Scenario.rejected_markup_env Scenario.scraper
     Scenario.example_url Scenario.ready_world).1
  = Raise (Exn (OtherException "ParserRejectedMarkup")
               (lit "expected name token at '<![>'")).
Proof. vm_compute. reflexivity. Qed.

(** ** Success of the extractor *)




(** ** Whitespace normalisation *)

Section Whitespace.

Lemma lstrip_split (s : pystr) :
  exists lead,
    s = lead ++ lstrip s /\ forallb isspace lead = true /\
    forall c, head (lstrip s) = Some c -> isspace c = false.
Proof.
  induction s as [|c s IH]; cbn.
  - by exists [].
  - destruct (isspace c) eqn:Hc.
    + destruct IH as (lead & Heq & Hl & Hh).
      exists (c :: lead). cbn. rewrite Hc, Hl. by rewrite <- Heq.
    + exists []. cbn. split; [done|]. split; [done|]. by intros ? [= <-].
Qed.

Lemma rstrip_split (s : pystr) :
  exists trail,
    s = rstrip s ++ trail /\ forallb isspace trail = true /\
    forall c, last (rstrip s) = Some c -> isspace c = false.
Proof.
  induction s as [|c s IH]; cbn.
  - by exists [].
  - destruct IH as (trail & Heq & Hl & Hlast).
    destruct (rstrip s) as [|c' r] eqn:Hr.
    + destruct (isspace c) eqn:Hc.
      * exists (c :: trail). cbn in *. rewrite Hc, Hl. by rewrite <- Heq.
      * exists trail. cbn in *. split; [by rewrite <- Heq|].
        split; [done|]. by intros ? [= <-].
    + exists trail. split; [by rewrite Heq at 1|]. split; [done|].
      intros c0 Hc0. apply Hlast. exact Hc0.
Qed.

Lemma rstrip_head (s : pystr) (c : Z) :
  head (rstrip s) = Some c -> head s = Some c.
Proof.
  destruct s as [|c0 s]; cbn; [done|].
  destruct (rstrip s); [|done]. by destruct (isspace c0).
Qed.

(** [strip] is the spec's "leading and trailing whitespace removed". *)
Lemma strip_removes_outer_whitespace (s : pystr) :
  outer_whitespace_removed s (strip s).
Proof.
  unfold strip.
  destruct (lstrip_split s) as (lead & Hs & Hlead & Hhead).
  destruct (rstrip_split (lstrip s)) as (trail & Hr & Htrail & Hlast).
  exists lead, trail. split; [by rewrite <- Hr|]. split; [done|].
  split; [done|]. split; [|done].
  intros c Hc. apply Hhead. by apply rstrip_head.
Qed.

Lemma split_from_nonempty (tok s : pystr) :
  tok <> [] -> split_from tok s <> [].
Proof.
  revert tok. induction s as [|c s IH]; intros tok Htok; cbn.
  - by destruct tok.
  - destruct (isspace c).
    + by destruct tok.
    + apply IH. by destruct tok.
Qed.

(** Only whitespace: no token, and nothing left by [rstrip]. *)
Lemma split_from_nil_rstrip (s : pystr) :
  split_from [] s = [] <-> rstrip s = [].
Proof.
  induction s as [|c s IH]; cbn; [done|].
  destruct (isspace c) eqn:Hc.
  - rewrite IH. destruct (rstrip s); done.
  - split.
    + intros H. by apply split_from_nonempty in H.
    + by destruct (rstrip s).
Qed.

Lemma join_cons (sep p : pystr) (rest : list pystr) :
  rest <> [] -> join sep (p :: rest) = p ++ sep ++ join sep rest.
Proof. by destruct rest. Qed.

(** Tokenize-and-rejoin against the collapse of runs, with and without a
    token being read. *)
Lemma join_split_from (s : pystr) :
  join [space] (split_from [] s) = collapse_from true (rstrip s) /\
  forall tok, tok <> [] ->
    join [space] (split_from tok s) = tok ++ collapse_from false (rstrip s).
Proof.
  induction s as [|c s [IHnil IHtok]].
  - split; [done|]. intros tok Htok. cbn. destruct tok; [done|].
    cbn. by rewrite app_nil_r.
  - split.
    + cbn [split_from rstrip]. destruct (isspace c) eqn:Hc.
      * rewrite IHnil. destruct (rstrip s); cbn; by rewrite ?Hc.
      * rewrite IHtok by done.
        destruct (rstrip s); cbn; by rewrite Hc.
    + intros tok Htok. cbn [split_from rstrip].
      destruct (isspace c) eqn:Hc.
      * destruct tok as [|t0 tok]; [done|].
        destruct (rstrip s) as [|c' r] eqn:Hr.
        -- apply split_from_nil_rstrip in Hr. rewrite Hr. cbn.
           by rewrite app_nil_r.
        -- rewrite join_cons.
           2:{ intros Hnil. apply split_from_nil_rstrip in Hnil.
               by rewrite Hnil in Hr. }
           rewrite IHnil. cbn [collapse_from]. by rewrite Hc.
      * rewrite IHtok by (by destruct tok).
        rewrite <- app_assoc.
        destruct (rstrip s); cbn; by rewrite Hc.
Qed.

Lemma collapse_true_rstrip (s : pystr) :
  collapse_from true (rstrip s) = collapse_from false (rstrip (lstrip s)).
Proof.
  induction s as [|c s IH]; cbn [rstrip lstrip]; [done|].
  destruct (isspace c) eqn:Hc.
  - rewrite <- IH. destruct (rstrip s); cbn; by rewrite ?Hc.
  - cbn [rstrip]. destruct (rstrip s); rewrite ?Hc; cbn; by rewrite Hc.
Qed.

(** What [' '.join(s.split())] computes: the runs of whitespace inside
    the stripped string, each collapsed to one space. *)
Lemma join_split_collapse (s : pystr) :
  join (lit " ") (split s) = collapse_runs (strip s).
Proof.
  unfold split, collapse_runs, strip.
  rewrite <- collapse_true_rstrip. apply join_split_from.
Qed.

End Whitespace.

(** ** The transformer *)

Lemma transform_data_Some (self : WebScraper) (data : option dict)
    (w : world) (r : dict) :
  (transform_data self data w).1 = Ret (Some r) ->
  exists d, data = Some d /\ cleaned d = Some r.
Proof.
  rewrite transform_data_result. destruct (truthy data) eqn:Ht; [|done].
  destruct data as [d|]; [|done]. intros [= H]. by exists d.
Qed.

(** The shape of a cleaned record. *)
Lemma cleaned_Some (d r : dict) :
  cleaned d = Some r ->
  exists t c u ts bs,
    d !! "title" = Some (PyStr t) /\ d !! "content" = Some (PyStr c) /\
    d !! "url" = Some u /\ d !! "timestamp" = Some ts /\
    encode (format u ++ slice_to 100 (join (lit " ") (split c))) = Some bs /\
    r = <["data_hash" := PyStr (MD5.hexdigest bs)]>
        (<["title" := PyStr (strip t)]>
        (<["content" := PyStr (join (lit " ") (split c))]>
        (<["url" := u]>
        (<["timestamp" := ts]> ∅)))).
Proof.
  unfold cleaned.
  destruct (d !! "title") as [[|t]|]; try done.
  destruct (d !! "content") as [[|c]|]; try done.
  destruct (d !! "url") as [u|]; try done.
  destruct (d !! "timestamp") as [ts|]; try done.
  destruct (encode _) as [bs|] eqn:He; try done.
  intros [= <-]. by exists t, c, u, ts, bs.
Qed.

(** C10.  Frame of [transform_data]: when it returns a record, the input
    was a dict, the record's url and timestamp are exactly the input's,
    and the record has the five fields title, content, url, timestamp and
    data_hash and no other. *)
Theorem transform_frame (self : WebScraper) (data : option dict) (w : world)
    (r : dict) :
  (transform_data self data w).1 = Ret (Some r) ->
  exists d,
    data = Some d /\
    is_Some (d !! "url") /\ is_Some (d !! "timestamp") /\
    r !! "url" = d !! "url" /\
    r !! "timestamp" = d !! "timestamp" /\
    dom r = ({["title"; "content"; "url"; "timestamp"; "data_hash"]}
             : gset string).
Proof.
  intros H. apply transform_data_Some in H as (d & -> & Hc).
  apply cleaned_Some in Hc
    as (t & c & u & ts & bs & Ht & Hcont & Hu & Hts & He & ->).
  exists d. split; [done|]. rewrite Hu, Hts.
  split; [by eexists|]. split; [by eexists|].
  split; [by simplify_map_eq|]. split; [by simplify_map_eq|].
  rewrite !dom_insert_L, dom_empty_L. set_solver.
Qed.

(** C10, exercised on the record of the example page. *)
Lemma transform_frame_witness :
  exists d,
    Some example_record = Some d /\
    is_Some (d !! "url") /\ is_Some (d !! "timestamp") /\
    example_cleaned !! "url" = d !! "url" /\
    example_cleaned !! "timestamp" = d !! "timestamp" /\
    dom example_cleaned
    = ({["title"; "content"; "url"; "timestamp"; "data_hash"]}
       : gset string).
Proof.
  apply (transform_frame Scenario.scraper (Some example_record)
           Scenario.fresh_world example_cleaned).
  vm_compute. reflexivity.
Defined.

(** C8, as the code has it.  On a record whose title and content are
    strings, [transform_data] returns a record exactly when the url and
    timestamp are there and the hashed text can be encoded; the record's
    title is the input title with leading and trailing whitespace
    removed, and its content is the input content with leading and
    trailing whitespace removed and every remaining run of whitespace
    collapsed to a single space. *)
Theorem transform_normalises_whitespace (self : WebScraper) (d : dict)
    (w : world) (t c : pystr) :
  d !! "title" = Some (PyStr t) ->
  d !! "content" = Some (PyStr c) ->
  (forall u ts bs,
     d !! "url" = Some u -> d !! "timestamp" = Some ts ->
     encode (format u ++ slice_to 100 (collapse_runs (strip c))) = Some bs ->
     exists r, (transform_data self (Some d) w).1 = Ret (Some r)) /\
  (forall r,
     (transform_data self (Some d) w).1 = Ret (Some r) ->
     r !! "title" = Some (PyStr (strip t)) /\
     outer_whitespace_removed t (strip t) /\
     r !! "content" = Some (PyStr (collapse_runs (strip c)))).
Proof.
  intros Ht Hc. split.
  - intros u ts bs Hu Hts He. rewrite transform_data_result.
    assert (Htruthy : truthy (Some d) = true).
    { cbn. apply negb_true_iff, bool_decide_eq_false. intros ->.
      by rewrite lookup_empty in Ht. }
    rewrite Htruthy. change (default ∅ (Some d)) with d. unfold cleaned.
    rewrite Ht, Hc, Hu, Hts, join_split_collapse, He. by eexists.
  - intros r H. apply transform_data_Some in H as (d' & [= <-] & Hcl).
    apply cleaned_Some in Hcl
      as (t' & c' & u & ts & bs & Ht' & Hc' & Hu & Hts & He & ->).
    rewrite Ht in Ht'. rewrite Hc in Hc'. simplify_eq.
    split; [by simplify_map_eq|].
    split; [apply strip_removes_outer_whitespace|].
    rewrite <- join_split_collapse. by simplify_map_eq.
Qed.

(** C8, exercised: the example content becomes [a b c]. *)
Lemma transform_normalises_whitespace_witness :
  let d := record Scenario.example_url (lit "  T ") example_content
             (lit "2024-01-01T00:00:00") in
  exists r,
    (transform_data Scenario.scraper (Some d) Scenario.fresh_world).1
      = Ret (Some r) /\
    r !! "title" = Some (PyStr (lit "T")) /\
    r !! "content" = Some (PyStr (lit "a b c")).
Proof.
  intros d.
  destruct (transform_normalises_whitespace Scenario.scraper d
              Scenario.fresh_world (lit "  T ") example_content)
    as [Hok Hprop]; [reflexivity|reflexivity|].
  destruct (Hok (PyStr Scenario.example_url)
              (PyStr (lit "2024-01-01T00:00:00"))
              (default [] (encode (Scenario.example_url ++ lit "a b c"))))
    as [r Hr]; [reflexivity|reflexivity|vm_compute; reflexivity|].
  exists r. split; [exact Hr|].
  destruct (Hprop r Hr) as (Htitle & _ & Hcontent).
  split; [exact Htitle|exact Hcontent].
Defined.

(** C8 as stated fails: whitespace at the start of the content is
    dropped, where collapsing every run to a single space would leave
    one space. *)
Lemma leading_whitespace_is_dropped :
  let d := record Scenario.example_url (lit "T") (lit " a")
             (lit "2024-01-01T00:00:00") in
  returned_field "content"
    (transform_data Scenario.scraper (Some d) Scenario.fresh_world).1
  = Some (PyStr (lit "a")) /\
  collapse_runs (lit " a") = lit " a" /\
  lit "a" <> lit " a".
Proof.
  cbv zeta. split; [vm_compute; reflexivity|].
  split; [vm_compute; reflexivity|]. vm_compute. discriminate.
Qed.

(** ** The fingerprint *)

(** C3.  Fingerprints are deterministic and depend on the url and on the
    first 100 characters of the cleaned content only.  What
    [transform_data] returns does not depend on the world it runs in, so
    two calls on identical input return identical records; two records
    with the same url whose cleaned contents agree on the first 100
    characters get the same [data_hash]; and the [data_hash] is the MD5
    hex digest of the UTF-8 bytes of the url followed by the first 100
    characters of the cleaned content. *)
Theorem fingerprint_determinism (self : WebScraper) :
  (forall data w1 w2,
     (transform_data self data w1).1 = (transform_data self data w2).1) /\
  (forall d1 d2 w1 w2 r1 r2 c1 c2,
     (transform_data self (Some d1) w1).1 = Ret (Some r1) ->
     (transform_data self (Some d2) w2).1 = Ret (Some r2) ->
     d1 !! "url" = d2 !! "url" ->
     d1 !! "content" = Some (PyStr c1) ->
     d2 !! "content" = Some (PyStr c2) ->
     slice_to 100 (clean_content c1) = slice_to 100 (clean_content c2) ->
     r1 !! "data_hash" = r2 !! "data_hash" /\
     exists u bs,
       d1 !! "url" = Some u /\
       encode (format u ++ slice_to 100 (clean_content c1)) = Some bs /\
       r1 !! "data_hash" = Some (PyStr (MD5.hexdigest bs))).
Proof.
  split.
  - intros data w1 w2. by rewrite !transform_data_result.
  - intros d1 d2 w1 w2 r1 r2 c1 c2 H1 H2 Hurl Hc1 Hc2 Hpre.
    apply transform_data_Some in H1 as (d1' & [= <-] & Hcl1).
    apply transform_data_Some in H2 as (d2' & [= <-] & Hcl2).
    apply cleaned_Some in Hcl1
      as (t1 & c1' & u1 & ts1 & bs1 & _ & Hc1' & Hu1 & _ & He1 & ->).
    apply cleaned_Some in Hcl2
      as (t2 & c2' & u2 & ts2 & bs2 & _ & Hc2' & Hu2 & _ & He2 & ->).
    rewrite Hc1 in Hc1'. rewrite Hc2 in Hc2'. rewrite Hurl, Hu2 in Hu1.
    simplify_eq. fold (clean_content c1') in *.
    fold (clean_content c2') in *. rewrite Hpre, He2 in He1.
    simplify_eq. split; [by rewrite !lookup_insert_eq|].
    exists u1, bs1. split; [by rewrite Hurl|]. split; [by rewrite Hpre|].
    by rewrite lookup_insert_eq.
Qed.

(** C3, exercised: the records of two fetches of the example URL whose
    contents differ after the 100th character, at different times, get
    the same fingerprint. *)
Lemma fingerprint_determinism_witness :
  let d1 := record Scenario.example_url (lit "T") (long_content 120)
              (lit "2024-01-01T00:00:00") in
  let d2 := record Scenario.example_url (lit "U") (long_content 121)
              (lit "2024-01-01T00:00:01") in
  default ∅ (cleaned d1) !! "data_hash"
  = default ∅ (cleaned d2) !! "data_hash" /\
  default ∅ (cleaned d1) !! "content"
  <> default ∅ (cleaned d2) !! "content".
Proof.
  intros d1 d2. split.
  - refine (proj1 (proj2 (fingerprint_determinism Scenario.scraper)
                     d1 d2 Scenario.fresh_world Scenario.ready_world
                     (default ∅ (cleaned d1)) (default ∅ (cleaned d2))
                     (long_content 120) (long_content 121) _ _ _ _ _ _)).
    + vm_compute. reflexivity.
    + vm_compute. reflexivity.
    + reflexivity.
    + reflexivity.
    + reflexivity.
    + vm_compute. reflexivity.
  - vm_compute. discriminate.
Defined.

(** ** Upsert *)

Lemma bind_param_to_sql (v : pyval) (x : sqlval) :
  Sqlite.bind_param v = Ret x -> x = to_sql v.
Proof.
  destruct v as [|s]; cbn; [by intros [= <-]|].
  destruct (encode s); [by intros [= <-]|done].
Qed.

Lemma same_text_refl (u : pystr) : Sqlite.same_text (Some u) (Some u) = true.
Proof. cbn. by apply bool_decide_eq_true. Qed.

(** After a REPLACE of a row with url [u] into a table that declares the
    url unique, that row is the only one with this url. *)
Lemma replace_into_rows_for (t : table) (u : pystr)
    (v_title v_content v_timestamp v_hash : sqlval) :
  unique_url (declared t) = true ->
  rows_for u (Sqlite.replace_into t v_title v_content (Some u) v_timestamp
                v_hash)
  = [ {| id := sequence t + 1; title := v_title; content := v_content;
         url := Some u; timestamp := v_timestamp; data_hash := v_hash |} ].
Proof.
  intros Huq. unfold rows_for, Sqlite.replace_into. cbn [rows].
  rewrite filter_app.
  assert (Hnone : forall l : list row,
            filter (fun r => url r = Some u)
              (filter (fun old =>
                 Sqlite.conflicts (declared t)
                   {| id := sequence t + 1; title := v_title;
                      content := v_content; url := Some u;
                      timestamp := v_timestamp; data_hash := v_hash |}
                   old = false) l) = []).
  { induction l as [|r l IH]; [done|].
    rewrite filter_cons. case_decide as Hc; [|done].
    rewrite filter_cons. case_decide as Hu; [|done].
    exfalso. unfold Sqlite.conflicts in Hc. cbn [url] in Hc.
    by rewrite Huq, Hu, same_text_refl in Hc. }
  rewrite Hnone. cbn. by rewrite decide_True.
Qed.

(** A run that reports failure leaves every table as it was. *)
Lemma run_pipeline_false_tables (e : env) (self : WebScraper) (u : pystr)
    (w : world) :
  (run_pipeline e self u w).1 = Ret false ->
  tables (run_pipeline e self u w).2 = tables w.
Proof.
  unfold run_pipeline, run_pipeline_with, try_except, bind, ret.
  pose proof (extract_data_tables e self u w) as Hx.
  destruct (extract_data e self u w) as [[raw|ex] wa]; cbn in *; [|done].
  destruct (truthy raw); cbn; [|done].
  pose proof (transform_data_tables self raw wa) as Ht.
  destruct (transform_data self raw wa) as [[td|ex] wb]; cbn in *;
    [|congruence].
  destruct (truthy td); cbn; [|congruence].
  pose proof (load_data_false_tables e self td wb) as Hl.
  destruct (load_data_returns e self td wb) as [b Hb].
  destruct (load_data e self td wb) as [[b'|ex] wc]; cbn in *; [|done].
  intros [= ->]. rewrite Hl by done. congruence.
Qed.

(** What a successful run has stored: the table of the scraper's
    database got, by REPLACE, the row of the cleaned record of the
    fetched page. *)
Lemma run_pipeline_true (e : env) (self : WebScraper) (u : pystr)
    (w : world) :
  (run_pipeline e self u w).1 = Ret true ->
  exists r soup cd t v_title v_content v_hash,
    requests_get e u = Ret r /\
    html_parser e (body r) = Ret soup /\
    cleaned (raw_record e u soup) = Some cd /\
    tables w !! db_name self = Some t /\
    to_sql <$> cd !! "title" = Some v_title /\
    to_sql <$> cd !! "content" = Some v_content /\
    to_sql <$> cd !! "data_hash" = Some v_hash /\
    tables (run_pipeline e self u w).2 =
      <[db_name self :=
          Sqlite.replace_into t v_title v_content (Some u)
            (Some (datetime_now e)) v_hash]> (tables w).
Proof.
  intros Hrun.
  assert (Hrun' : run_pipeline e self u w
                  = (Ret true, (run_pipeline e self u w).2)).
  { by rewrite (surjective_pairing (run_pipeline e self u w)) at 1;
      rewrite Hrun. }
  apply run_true_inv in Hrun'
    as (raw & wa & td & wb & Hx & Hraw & Ht & Htd & Hl).
  pose proof (extract_data_result e self u w) as Hxr.
  pose proof (extract_data_tables e self u w) as Hxt.
  rewrite Hx in Hxr, Hxt. cbn in Hxr, Hxt.
  destruct (requests_get e u) as [r|ex] eqn:Hget;
    [|unfold contained in Hxr; destruct (is_RequestException ex);
      by simplify_eq].
  destruct (error_status r); [by simplify_eq|].
  destruct (html_parser e (body r)) as [soup|ex] eqn:Hparse;
    [|unfold contained in Hxr; destruct (is_RequestException ex);
      by simplify_eq].
  injection Hxr as ->.
  pose proof (transform_data_result self (Some (raw_record e u soup)) wa)
    as Htr.
  pose proof (transform_data_tables self (Some (raw_record e u soup)) wa)
    as Htt.
  rewrite Ht in Htr, Htt. rewrite raw_record_truthy in Htr.
  cbn in Htr, Htt.
  injection Htr as ->.
  destruct (cleaned (raw_record e u soup)) as [cd|] eqn:Hcd; [|done].
  pose proof (load_data_true e self (Some cd) wb) as Hlt.
  rewrite Hl in Hlt. cbn in Hlt.
  destruct (Hlt eq_refl)
    as (d & t & pt & pc & pu & pts & ph & vt & vc & vu & vts & vh
        & [= <-] & Htab & Hpt & Hvt & Hpc & Hvc & Hpu & Hvu & Hpts & Hvts
        & Hph & Hvh & Hw).
  apply bind_param_to_sql in Hvt, Hvc, Hvu, Hvts, Hvh. subst.
  exists r, soup, cd, t.
  destruct (cleaned_Some _ _ Hcd)
    as (t0 & c0 & u0 & ts0 & bs & Ht0 & Hc0 & Hu0 & Hts0 & He & Hcdeq).
  unfold raw_record in Hu0, Hts0.
  rewrite lookup_insert_eq in Hu0.
  rewrite !lookup_insert_ne, lookup_insert_eq in Hts0 by done.
  injection Hu0 as <-. injection Hts0 as <-.
  exists (Some (strip t0)), (Some (join (lit " ") (split c0))),
         (Some (MD5.hexdigest bs)).
  assert (Hf : cd !! "title" = Some (PyStr (strip t0)) /\
               cd !! "content" = Some (PyStr (join (lit " ") (split c0))) /\
               cd !! "url" = Some (PyStr u) /\
               cd !! "timestamp" = Some (PyStr (datetime_now e)) /\
               cd !! "data_hash" = Some (PyStr (MD5.hexdigest bs))).
  { rewrite Hcdeq. by simplify_map_eq. }
  destruct Hf as (Hf1 & Hf2 & Hf3 & Hf4 & Hf5).
  rewrite Hf1 in Hpt. rewrite Hf2 in Hpc. rewrite Hf3 in Hpu.
  rewrite Hf4 in Hpts. rewrite Hf5 in Hph. simplify_eq.
  rewrite Hf1, Hf2, Hf5. cbn.
  split; [done|]. split; [done|]. split; [done|].
  rewrite Htt, Hxt in Htab, Hw.
  split; [done|]. split; [done|]. split; [done|]. split; [done|]. done.
Qed.

Lemma cleaned_data_hash (d1 d2 cd1 cd2 : dict) :
  cleaned d1 = Some cd1 -> cleaned d2 = Some cd2 ->
  d1 !! "url" = d2 !! "url" -> d1 !! "content" = d2 !! "content" ->
  cd1 !! "data_hash" = cd2 !! "data_hash".
Proof.
  intros H1 H2 Hu Hc.
  apply cleaned_Some in H1
    as (t1 & c1 & u1 & ts1 & bs1 & _ & Hc1 & Hu1 & _ & He1 & ->).
  apply cleaned_Some in H2
    as (t2 & c2 & u2 & ts2 & bs2 & _ & Hc2 & Hu2 & _ & He2 & ->).
  rewrite Hu, Hu2 in Hu1. rewrite Hc, Hc2 in Hc1. simplify_eq.
  by rewrite !lookup_insert_eq.
Qed.

(** C1, as the code has it.  Upsert.  In a database whose [web_data]
    table declares the url unique (as the table that [setup_database]
    creates does; one that was there before is kept as declared): after
    a successful run for a URL, a second run for it that sees the same
    response and the same parse leaves, whatever its own outcome, exactly
    one stored row for that URL, with the same url and the same
    fingerprint as after the first run; when the second run succeeds too,
    that row is a new one, with the next id and the second run's
    timestamp.  More generally, a successful load of any record with url
    [u] leaves exactly one row with url [u], and that row holds the
    record's fields. *)
Theorem upsert_idempotence (self : WebScraper) :
  (forall e1 e2 u w t,
     tables w !! db_name self = Some t ->
     unique_url (declared t) = true ->
     requests_get e2 u = requests_get e1 u ->
     (forall bs, html_parser e2 bs = html_parser e1 bs) ->
     (run_pipeline e1 self u w).1 = Ret true ->
     let w1 := (run_pipeline e1 self u w).2 in
     let w2 := (run_pipeline e2 self u w1).2 in
     exists t1 t2 r1 r2,
       tables w1 !! db_name self = Some t1 /\
       tables w2 !! db_name self = Some t2 /\
       rows_for u t1 = [r1] /\ rows_for u t2 = [r2] /\
       url r1 = Some u /\ url r2 = Some u /\
       data_hash r2 = data_hash r1 /\
       ((run_pipeline e2 self u w1).1 = Ret true ->
        timestamp r2 = Some (datetime_now e2) /\ id r2 = id r1 + 1)) /\
  (forall e d w t u,
     tables w !! db_name self = Some t ->
     unique_url (declared t) = true ->
     d !! "url" = Some (PyStr u) ->
     (load_data e self (Some d) w).1 = Ret true ->
     exists t' r,
       tables (load_data e self (Some d) w).2 !! db_name self = Some t' /\
       rows_for u t' = [r] /\
       id r = sequence t + 1 /\
       url r = Some u /\
       to_sql <$> d !! "title" = Some (title r) /\
       to_sql <$> d !! "content" = Some (content r) /\
       to_sql <$> d !! "timestamp" = Some (timestamp r) /\
       to_sql <$> d !! "data_hash" = Some (data_hash r)).
Proof.
  split.
  - intros e1 e2 u w t Htab Huq Hget Hparse Hrun1 w1 w2.
    destruct (run_pipeline_true e1 self u w Hrun1)
      as (r & soup & cd & t' & vt & vc & vh & Hr & Hs & Hcd & Htab' & _ & _
          & Hvh & Hw1).
    rewrite Htab in Htab'. injection Htab' as <-.
    set (t1 := Sqlite.replace_into t vt vc (Some u) (Some (datetime_now e1))
                 vh) in *.
    assert (Ht1 : tables w1 !! db_name self = Some t1).
    { subst w1. by rewrite Hw1, lookup_insert_eq. }
    assert (Hrows1 := replace_into_rows_for t u vt vc
                        (Some (datetime_now e1)) vh Huq).
    fold t1 in Hrows1.
    destruct (run_pipeline_with_returns (extract_data e2 self)
                (transform_data self) (load_data e2 self) u w1) as [b Hb].
    fold (run_pipeline e2 self u w1) in Hb.
    destruct b.
    + destruct (run_pipeline_true e2 self u w1 Hb)
        as (r' & soup' & cd' & t1' & vt' & vc' & vh' & Hr' & Hs' & Hcd'
            & Htab1 & _ & _ & Hvh' & Hw2).
      rewrite Ht1 in Htab1. injection Htab1 as <-.
      rewrite Hget, Hr in Hr'. injection Hr' as <-.
      rewrite Hparse, Hs in Hs'. injection Hs' as <-.
      assert (Hh : cd' !! "data_hash" = cd !! "data_hash").
      { eapply cleaned_data_hash; [exact Hcd'|exact Hcd|..];
          unfold raw_record; by simplify_map_eq. }
      rewrite Hh, Hvh in Hvh'. injection Hvh' as <-.
      eexists t1, _, _, _. split; [done|].
      split; [subst w2; by rewrite Hw2, lookup_insert_eq|].
      split; [done|].
      split; [by apply replace_into_rows_for|]. done.
    + assert (Hw2 : tables w2 = tables w1)
        by (by apply run_pipeline_false_tables).
      eexists t1, t1, _, _. split; [done|]. split; [by rewrite Hw2|].
      split; [done|]. split; [done|]. split; [done|]. split; [done|].
      split; [done|]. by rewrite Hb.
  - intros e d w t u Htab Huq Hu Hload.
    destruct (load_data_true e self (Some d) w Hload)
      as (d' & t' & pt & pc & pu & pts & ph & vt & vc & vu & vts & vh
          & [= <-] & Htab' & Hpt & Hvt & Hpc & Hvc & Hpu & Hvu & Hpts & Hvts
          & Hph & Hvh & Hw).
    rewrite Htab in Htab'. injection Htab' as <-.
    rewrite Hu in Hpu. injection Hpu as <-.
    apply bind_param_to_sql in Hvt, Hvc, Hvu, Hvts, Hvh. subst.
    eexists _, _. split; [by rewrite Hw, lookup_insert_eq|].
    split; [by apply replace_into_rows_for|].
    rewrite Hpt, Hpc, Hpts, Hph. done.
Qed.

(** C1, exercised: two runs for the example URL, one second apart, in
    the world a fresh constructor leaves. *)
Lemma upsert_idempotence_witness :
  let w1 := (run_pipeline Scenario.ok_env Scenario.scraper
               Scenario.example_url Scenario.ready_world).2 in
  let w2 := (run_pipeline Scenario.ok_env_later Scenario.scraper
               Scenario.example_url w1).2 in
  exists t1 t2 r1 r2,
    tables w1 !! db_name Scenario.scraper = Some t1 /\
    tables w2 !! db_name Scenario.scraper = Some t2 /\
    rows_for Scenario.example_url t1 = [r1] /\
    rows_for Scenario.example_url t2 = [r2] /\
    url r1 = Some Scenario.example_url /\
    url r2 = Some Scenario.example_url /\
    data_hash r2 = data_hash r1 /\
    ((run_pipeline Scenario.ok_env_later Scenario.scraper
        Scenario.example_url w1).1 = Ret true ->
     timestamp r2 = Some (datetime_now Scenario.ok_env_later) /\
     id r2 = id r1 + 1).
Proof.
  apply (proj1 (upsert_idempotence Scenario.scraper)
           Scenario.ok_env Scenario.ok_env_later Scenario.example_url
           Scenario.ready_world
           {| declared := Sqlite.web_data_schema; rows := [];
              sequence := 0 |}).
  - vm_compute. reflexivity.
  - reflexivity.
  - reflexivity.
  - intros bs. reflexivity.
  - vm_compute. reflexivity.
Defined.

(** C1 as stated fails on both sides of "exactly one".  On a database
    file that already holds a [web_data] table declared without UNIQUE
    columns, which the constructor keeps, two successful runs that see
    the same response store two rows for the URL.  And on a page whose
    title element has no text, both runs fail and no row is stored. *)
Lemma identical_runs_leave_two_rows_or_none :
  let u := Scenario.example_url in
  let w0 := (init Scenario.ok_env default_db_name Scenario.foreign_world).2 in
  let kept1 := run_pipeline Scenario.ok_env Scenario.scraper u w0 in
  let kept2 := run_pipeline Scenario.ok_env_later Scenario.scraper u kept1.2 in
  let bare1 := run_pipeline untitled_env Scenario.scraper u
                 Scenario.ready_world in
  let bare2 := run_pipeline untitled_env Scenario.scraper u bare1.2 in
  requests_get Scenario.ok_env_later u = requests_get Scenario.ok_env u /\
  kept1.1 = Ret true /\ kept2.1 = Ret true /\
  (length ∘ rows_for u <$> tables kept2.2 !! default_db_name)
    = Some 2%nat /\
  bare1.1 = Ret false /\ bare2.1 = Ret false /\
  (length ∘ rows_for u <$> tables bare2.2 !! default_db_name)
    = Some 0%nat.
Proof.
  cbv zeta. split; [reflexivity|].
  split; [vm_compute; reflexivity|]. split; [vm_compute; reflexivity|].
  split; [vm_compute; reflexivity|]. split; [vm_compute; reflexivity|].
  split; vm_compute; reflexivity.
Qed.

(** The end-to-end scenario of the spec, run twice: both runs return
    [True] and the table holds one row, with title [T], the example url
    and the fingerprint of the page. *)
Example example_page_twice :
  let w1 := (run_pipeline Scenario.ok_env Scenario.scraper
               Scenario.example_url Scenario.ready_world) in
  let w2 := (run_pipeline Scenario.ok_env_later Scenario.scraper
               Scenario.example_url w1.2) in
  w1.1 = Ret true /\ w2.1 = Ret true /\
  (rows <$> tables w2.2 !! default_db_name)
  = Some [ {| id := 2;
              title := Some (lit "T");
              content := Some (lit "Thello world");
              url := Some Scenario.example_url;
              timestamp := Some (lit "2024-01-01T00:00:01");
              data_hash := Some (lit "735ab94d88d955af9c74222902ba9cc7") |} ].
Proof. vm_compute. done. Qed.

(** ** The constructor *)

Lemma transform_data_returns (self : WebScraper) (data : option dict)
    (w : world) :
  exists o, (transform_data self data w).1 = Ret o.
Proof. rewrite transform_data_result. by eexists. Qed.




(** * Further properties *)

Lemma http_gets_app (a b : list event) :
  http_gets (a ++ b) = http_gets a ++ http_gets b.
Proof. apply omap_app. Qed.

Lemma connects_app (a b : list event) :
  connects (a ++ b) = connects a ++ connects b.
Proof. apply omap_app. Qed.

(** Closes a goal [exists evs, trace_after = trace w ++ evs /\ ...] once
    the computation is reduced to explicit appends. *)
Ltac close_events :=
  rewrite <- ?app_assoc;
  first [ eexists; split; [reflexivity|]; cbn; done
        | exists []; rewrite ?app_nil_r; done ].

Lemma extract_data_events (e : env) (self : WebScraper) (u : pystr)
    (w : world) :
  exists evs,
    trace (extract_data e self u w).2 = trace w ++ evs /\
    http_gets evs = [u] /\ connects evs = [].
Proof. run_py. repeat split_match; close_events. Qed.

Lemma transform_data_events (self : WebScraper) (data : option dict)
    (w : world) :
  exists evs,
    trace (transform_data self data w).2 = trace w ++ evs /\
    http_gets evs = [] /\ connects evs = [] /\
    length evs = (if truthy data then 1 else 0)%nat.
Proof.
  unfold transform_data. destruct (truthy data); cbn; [|close_events].
  run_py. repeat split_match; close_events.
Qed.

Lemma load_data_events (e : env) (self : WebScraper) (data : option dict)
    (w : world) :
  exists evs,
    trace (load_data e self data w).2 = trace w ++ evs /\
    http_gets evs = [] /\
    connects evs = (if truthy data then [db_name self] else []).
Proof.
  unfold load_data. destruct (truthy data); cbn; [|close_events].
  run_py. repeat split_match; close_events.
Qed.

Lemma cleaned_truthy (d cd : dict) : cleaned d = Some cd -> truthy (Some cd) = true.
Proof.
  intros H. apply cleaned_Some in H as (?&?&?&?&?&?&?&?&?&?& ->).
  apply truthy_insert.
Qed.

(** A run is its extractor and transformer, which leave the tables alone
    and request the URL once, followed by the loader on the cleaned
    record, if there is one. *)
Lemma run_pipeline_factor (e : env) (self : WebScraper) (u : pystr)
    (w : world) :
  exists w2 evs,
    trace w2 = trace w ++ evs /\ tables w2 = tables w /\
    http_gets evs = [u] /\ connects evs = [] /\
    run_pipeline e self u w
    = match cleaned_page e u with
      | Some cd => load_data e self (Some cd) w2
      | None => (Ret false, w2)
      end.
Proof.
  unfold cleaned_page, run_pipeline, run_pipeline_with, try_except, bind, ret.
  destruct (extract_data_events e self u w) as (ev1 & Ht1 & Hg1 & Hc1).
  pose proof (extract_data_result e self u w) as Hr1.
  pose proof (extract_data_tables e self u w) as Htb1.
  destruct (extract_data e self u w) as [[raw|ex] w1]; cbn in *.
  2:{ set (ev := LogError (lit "Pipeline failed for " ++ u ++ lit ": "
                             ++ exn_str ex)).
      exists (emit ev w1).2, (ev1 ++ [ev]). cbn.
      rewrite Ht1, <- app_assoc.
      split; [done|]. split; [done|].
      rewrite http_gets_app, connects_app, Hg1, Hc1.
      split; [done|]. split; [done|].
      destruct (requests_get e u) as [r|ex1].
      - destruct (error_status r); [done|].
        by destruct (html_parser e (body r)).
      - done. }
  destruct (truthy raw) eqn:Hraw; cbn.
  2:{ exists w1, ev1. split; [done|]. split; [done|]. split; [done|].
      split; [done|].
      destruct (requests_get e u) as [r|ex1]; [|done].
      destruct (error_status r); [done|].
      destruct (html_parser e (body r)) as [soup|ex2]; [|done].
      injection Hr1 as ->. by rewrite raw_record_truthy in Hraw. }
  destruct (transform_data_events self raw w1) as (ev2 & Ht2 & Hg2 & Hc2 & _).
  pose proof (transform_data_result self raw w1) as Hr2.
  pose proof (transform_data_tables self raw w1) as Htb2.
  rewrite Hraw in Hr2.
  assert (Hcp : cleaned (default ∅ raw)
                = match requests_get e u with
                  | Ret r =>
                      if error_status r then None
                      else match html_parser e (body r) with
                           | Ret soup => cleaned (raw_record e u soup)
                           | Raise _ => None
                           end
                  | Raise _ => None
                  end).
  { destruct (requests_get e u) as [r|ex1].
    - destruct (error_status r); [by simplify_eq|].
      destruct (html_parser e (body r)) as [soup|ex2].
      + by injection Hr1 as ->.
      + unfold contained in Hr1.
        destruct (is_RequestException ex2); by simplify_eq.
    - unfold contained in Hr1.
      destruct (is_RequestException ex1); by simplify_eq. }
  rewrite <- Hcp.
  destruct (transform_data self raw w1) as [[td|ex] w2]; cbn in *;
    [|discriminate Hr2].
  injection Hr2 as ->.
  exists w2, (ev1 ++ ev2). rewrite Ht2, Ht1, <- app_assoc.
  split; [done|]. split; [congruence|].
  rewrite http_gets_app, connects_app, Hg1, Hc1, Hg2, Hc2.
  split; [done|]. split; [done|].
  destruct (cleaned (default ∅ raw)) as [cd|] eqn:Hcd; [|done].
  rewrite (cleaned_truthy _ _ Hcd). cbn.
  destruct (load_data_returns e self (Some cd) w2) as [b Hb].
  by destruct (load_data e self (Some cd) w2) as [[b'|ex] w3].
Qed.

Lemma load_data_result (e : env) (self : WebScraper) (data : option dict)
    (w : world) :
  (load_data e self data w).1 = Ret (load_goes_through e self data w).
Proof.
  unfold load_goes_through, load_data, first_fault, loadable.
  destruct (truthy data) eqn:Ht; cbn; [|done].
  destruct data as [d|]; [|discriminate]. cbn.
  run_py. unfold Sqlite.bind_param, storable.
  repeat split_match; simplify_eq; done.
Qed.

(** *** Encoding *)

Lemma encode_Forall (s : pystr) :
  is_Some (encode s) <-> Forall (fun c => encodable c = true) s.
Proof.
  induction s as [|c s IH]; cbn.
  - split; [constructor|by eexists].
  - unfold encode; fold encode. destruct (encodable c) eqn:Hc.
    + destruct (encode s) as [bs|].
      * split; [|by eexists]. intros _. constructor; [done|].
        apply IH. by eexists.
      * split; [by intros [? ?]|]. intros H. inversion_clear H as [|?? _ Hs].
        apply IH in Hs. by destruct Hs.
    + split; [by intros [? ?]|]. intros H. inversion_clear H. congruence.
Qed.

Lemma encode_app (a b : pystr) :
  is_Some (encode (a ++ b)) <-> is_Some (encode a) /\ is_Some (encode b).
Proof. rewrite !encode_Forall. apply Forall_app. Qed.

Lemma encode_take (n : nat) (s : pystr) :
  is_Some (encode s) -> is_Some (encode (slice_to n s)).
Proof. rewrite !encode_Forall. apply Forall_take. Qed.

(** *** The digest as text *)

Lemma le_bytes_length (n : nat) (x : Z) : length (MD5.le_bytes n x) = n.
Proof. revert x. induction n as [|n IH]; intros x; cbn; [done|]. by rewrite IH. Qed.

Lemma le_bytes_range (n : nat) (x : Z) :
  Forall (fun b => 0 <= b < 256) (MD5.le_bytes n x).
Proof.
  revert x. induction n as [|n IH]; intros x; cbn; constructor; [|apply IH].
  change 255 with (Z.ones 8). rewrite Z.land_ones by lia.
  apply Z.mod_pos_bound. lia.
Qed.

Lemma hex_digit_ok (n : Z) :
  0 <= n < 16 -> is_hex_digit (MD5.hex_digit n) = true.
Proof.
  intros Hn. unfold MD5.hex_digit, is_hex_digit.
  destruct (n <? 10) eqn:H10; lia.
Qed.

Lemma hex_byte_ok (b : Z) :
  0 <= b < 256 -> Forall (fun c => is_hex_digit c = true) (MD5.hex_byte b).
Proof.
  intros Hb. unfold MD5.hex_byte.
  constructor; [|constructor; [|constructor]]; apply hex_digit_ok.
  - rewrite Z.shiftr_div_pow2 by lia. change (2 ^ 4) with 16.
    split; [apply Z.div_pos; lia|]. apply Z.div_lt_upper_bound; lia.
  - change 15 with (Z.ones 4). rewrite Z.land_ones by lia.
    apply Z.mod_pos_bound. lia.
Qed.

Lemma digest_bytes (msg : list Z) :
  length (MD5.digest msg) = 16%nat /\
  Forall (fun b => 0 <= b < 256) (MD5.digest msg).
Proof.
  unfold MD5.digest.
  destruct (foldl MD5.compress MD5.initial _) as [[[a b] c] d].
  split.
  - rewrite !length_app, !le_bytes_length. done.
  - rewrite !Forall_app. repeat split; apply le_bytes_range.
Qed.

Lemma hexdigest_format (msg : list Z) :
  length (MD5.hexdigest msg) = 32%nat /\
  Forall (fun c => is_hex_digit c = true) (MD5.hexdigest msg).
Proof.
  unfold MD5.hexdigest. destruct (digest_bytes msg) as [Hlen Hrange].
  revert Hlen Hrange. generalize (MD5.digest msg) as bs.
  assert (H : forall bs : list Z,
             Forall (fun b => 0 <= b < 256) bs ->
             length (mjoin (MD5.hex_byte <$> bs)) = (2 * length bs)%nat /\
             Forall (fun c => is_hex_digit c = true)
               (mjoin (MD5.hex_byte <$> bs))).
  { induction bs as [|b bs IH]; intros Hr; [by split|].
    inversion_clear Hr as [|?? Hb Hbs]. destruct (IH Hbs) as [IHl IHf].
    change (mjoin (MD5.hex_byte <$> b :: bs))
      with (MD5.hex_byte b ++ mjoin (MD5.hex_byte <$> bs)).
    split.
    - rewrite length_app, IHl. cbn. lia.
    - apply Forall_app. split; [by apply hex_byte_ok|done]. }
  intros bs Hlen Hrange. destruct (H bs Hrange) as [Hl Hf].
  split; [lia|done].
Qed.

Lemma hex_digit_encodable (c : Z) : is_hex_digit c = true -> encodable c = true.
Proof. unfold is_hex_digit, encodable. lia. Qed.

Lemma hexdigest_encodable (msg : list Z) : is_Some (encode (MD5.hexdigest msg)).
Proof.
  apply encode_Forall. eapply Forall_impl; [apply hexdigest_format|].
  apply hex_digit_encodable.
Qed.

(** *** Words *)

Lemma split_from_words (tok s : pystr) :
  Forall (fun c => isspace c = false) tok -> Forall word (split_from tok s).
Proof.
  revert tok. induction s as [|c s IH]; intros tok Htok; cbn.
  - destruct tok; [constructor|]. constructor; [by split|constructor].
  - destruct (isspace c) eqn:Hc.
    + destruct tok as [|t0 tok]; [by apply IH|].
      constructor; [by split|]. by apply IH.
    + apply IH. apply Forall_app. split; [done|]. by constructor.
Qed.

Lemma split_from_app (tok t s : pystr) :
  Forall (fun c => isspace c = false) t ->
  split_from tok (t ++ s) = split_from (tok ++ t) s.
Proof.
  revert tok. induction t as [|c t IH]; intros tok Ht; cbn.
  - by rewrite app_nil_r.
  - inversion_clear Ht as [|?? Hc Ht']. rewrite Hc, IH by done.
    by rewrite <- app_assoc.
Qed.

Lemma split_from_blank (lead s : list Z) :
  blank lead -> split_from [] (lead ++ s) = split_from [] s.
Proof.
  induction 1 as [|c lead Hc _ IH]; cbn; [done|]. by rewrite Hc.
Qed.

Lemma split_from_followed_by (words : list (list Z)) (tok rest : list Z) :
  tok <> [] -> followed_by words rest -> split_from tok rest = tok :: words.
Proof.
  revert tok rest. induction words as [|t words IH]; intros tok rest Hne.
  - cbn [followed_by]. intros Hb. destruct Hb as [|c rest Hc Hb]; cbn.
    + by destruct tok.
    + rewrite Hc. rewrite <- (app_nil_r rest), (split_from_blank rest []) by done.
      by destruct tok.
  - cbn [followed_by].
    intros (gap & rest' & -> & Hgap & Hb & [Ht Hw] & Hrest).
    destruct Hb as [|c gap Hc Hb]; [done|]. cbn. rewrite Hc.
    rewrite split_from_blank, split_from_app by done. cbn [app].
    rewrite (IH t rest') by done. by destruct tok.
Qed.

(** The words [split] returns are the maximal runs of non-whitespace
    characters of the string. *)
Lemma split_from_runs (s : list Z) :
  maximal_runs s (split_from [] s) /\
  forall tok, tok <> [] ->
    exists t rest words,
      split_from tok s = (tok ++ t) :: words /\ s = t ++ rest /\
      Forall (fun c => isspace c = false) t /\ followed_by words rest.
Proof.
  induction s as [|c s [IH0 IH1]].
  - split; [by constructor|]. intros tok Hne.
    exists [], [], []. rewrite app_nil_r. cbn.
    split; [by destruct tok|]. split; [done|]. split; by constructor.
  - assert (Hgap : isspace c = true ->
                   followed_by (split_from [] s) (c :: s)).
    { intros Hc. destruct (split_from [] s) as [|t words] eqn:Hs.
      - by constructor.
      - destruct IH0 as (lead & rest & -> & Hl & Hw & Hrest).
        exists (c :: lead), rest. split; [done|]. split; [done|].
        split; [by constructor|]. done. }
    destruct (isspace c) eqn:Hc.
    + split.
      * cbn [split_from]. rewrite Hc.
        destruct (split_from [] s) as [|t words] eqn:Hs.
        -- by constructor.
        -- destruct IH0 as (lead & rest & -> & Hl & Hw & Hrest).
           exists (c :: lead), rest. split; [done|].
           split; [by constructor|]. done.
      * intros tok Hne. exists [], (c :: s), (split_from [] s).
        rewrite app_nil_r. cbn [split_from]. rewrite Hc.
        split; [by destruct tok|]. split; [done|].
        split; [by constructor|]. by apply Hgap.
    + split.
      * cbn [split_from]. rewrite Hc. cbn [app].
        destruct (IH1 [c]) as (t & rest & words & -> & -> & Ht & Hrest);
          [done|].
        exists [], rest. split; [done|]. split; [by constructor|].
        split; [|done]. split; [done|]. by constructor.
      * intros tok Hne. cbn [split_from]. rewrite Hc.
        destruct (IH1 (tok ++ [c])) as (t & rest & words & -> & -> & Ht & Hrest);
          [by destruct tok|].
        exists (c :: t), rest, words. rewrite <- app_assoc.
        split; [done|]. split; [done|]. split; [by constructor|]. done.
Qed.

Lemma maximal_runs_split (s : list Z) (words : list (list Z)) :
  maximal_runs s words <-> words = split s.
Proof.
  split.
  - unfold split. destruct words as [|t words]; cbn [maximal_runs].
    + intros Hb. rewrite <- (app_nil_r s), (split_from_blank s []) by done.
      done.
    + intros (lead & rest & -> & Hl & [Hne Ht] & Hrest).
      rewrite split_from_blank, split_from_app by done. cbn [app].
      by rewrite (split_from_followed_by words t rest).
  - intros ->. apply split_from_runs.
Qed.

Lemma split_join_words (toks : list pystr) :
  Forall word toks -> split (join [space] toks) = toks.
Proof.
  unfold split. induction toks as [|t toks IH]; intros Hw; [done|].
  inversion_clear Hw as [|?? [Hne Ht] Hws].
  destruct toks as [|t' toks].
  - change (join [space] [t]) with t.
    rewrite <- (app_nil_r t) at 1. rewrite split_from_app by done.
    cbn. by destruct t.
  - change (join [space] (t :: t' :: toks))
      with (t ++ [space] ++ join [space] (t' :: toks)).
    rewrite split_from_app by done. cbn. destruct t; [done|].
    by rewrite IH.
Qed.

Lemma mjoin_split_from (tok s : pystr) :
  Forall (fun c => isspace c = false) tok ->
  mjoin (split_from tok s) = tok ++ non_space s.
Proof.
  unfold non_space.
  revert tok. induction s as [|c s IH]; intros tok Htok; cbn [split_from].
  - destruct tok; [done|]. cbn. by rewrite !app_nil_r.
  - rewrite filter_cons. destruct (isspace c) eqn:Hc.
    + rewrite decide_False by done.
      destruct tok as [|t0 tok]; [by apply (IH [])|].
      change (mjoin ((t0 :: tok) :: split_from [] s))
        with ((t0 :: tok) ++ mjoin (split_from [] s)).
      by rewrite (IH []).
    + rewrite decide_True by done. rewrite IH.
      * by rewrite <- app_assoc.
      * apply Forall_app. split; [done|]. by constructor.
Qed.

Lemma non_space_join (toks : list (list Z)) :
  Forall word toks -> non_space (join [space] toks) = mjoin toks.
Proof.
  unfold non_space. induction toks as [|t toks IH]; intros Hw; [done|].
  inversion_clear Hw as [|?? [Hne Ht] Hws].
  assert (Hft : filter (fun c => isspace c = false) t = t).
  { clear Hne. induction t as [|c t IHt]; [done|].
    inversion_clear Ht as [|?? Hc Ht']. rewrite filter_cons, decide_True by done.
    by rewrite IHt. }
  destruct toks as [|t' toks].
  - change (join [space] [t]) with t. cbn. by rewrite app_nil_r.
  - change (join [space] (t :: t' :: toks))
      with (t ++ [space] ++ join [space] (t' :: toks)).
    rewrite !filter_app, Hft, IH by done.
    change (mjoin (t :: t' :: toks)) with (t ++ mjoin (t' :: toks)).
    f_equal.
Qed.

Lemma join_split_from_length (tok s : pystr) :
  (length (join [space] (split_from tok s)) <= length tok + length s)%nat.
Proof.
  revert tok. induction s as [|c s IH]; intros tok; cbn [split_from].
  - destruct tok; [change (join [space] []) with (@nil Z); cbn; lia|].
    change (join [space] [z :: tok]) with (z :: tok). lia.
  - destruct (isspace c).
    + destruct tok as [|t0 tok].
      * specialize (IH []). cbn [length] in *. lia.
      * specialize (IH []).
        destruct (split_from [] s) as [|t1 rest] eqn:Hs.
        -- change (join [space] [t0 :: tok]) with (t0 :: tok). cbn. lia.
        -- change (join [space] ((t0 :: tok) :: t1 :: rest))
             with ((t0 :: tok) ++ [space] ++ join [space] (t1 :: rest)).
           rewrite !length_app. cbn [length] in *. lia.
    + specialize (IH (tok ++ [c])). rewrite length_app in IH.
      cbn [length] in *. lia.
Qed.

Lemma lstrip_id (s : pystr) :
  (forall c, head s = Some c -> isspace c = false) -> lstrip s = s.
Proof.
  destruct s as [|c s]; cbn; [done|]. intros H. by rewrite (H c).
Qed.

Lemma rstrip_id (s : pystr) :
  (forall c, last s = Some c -> isspace c = false) -> rstrip s = s.
Proof.
  induction s as [|c s IH]; cbn; [done|]. intros H.
  destruct s as [|c' s].
  - cbn. by rewrite (H c).
  - rewrite IH by (intros c0 Hc0; by apply H). done.
Qed.

Lemma strip_idempotent (s : pystr) : strip (strip s) = strip s.
Proof.
  destruct (strip_removes_outer_whitespace s)
    as (lead & trail & _ & _ & _ & Hhead & Hlast).
  unfold strip at 1. rewrite lstrip_id by done. by apply rstrip_id.
Qed.

Lemma clean_content_idempotent (c : pystr) :
  clean_content (clean_content c) = clean_content c.
Proof.
  unfold clean_content. change (lit " ") with [space].
  rewrite split_join_words; [done|]. by apply split_from_words.
Qed.

(** *** The table invariant *)

Lemma forallb_filter (P : row -> bool) (Q : row -> Prop)
    `{!forall r, Decision (Q r)} (l : list row) :
  forallb P l = true -> forallb P (filter Q l) = true.
Proof.
  induction l as [|r l IH]; [done|]. cbn [forallb].
  intros [Hr Hl]%andb_prop.
  rewrite filter_cons. destruct (decide (Q r)); [|by apply IH].
  cbn [forallb]. by rewrite Hr, IH.
Qed.

Lemma pairwise_filter (R : row -> row -> bool) (Q : row -> Prop)
    `{!forall r, Decision (Q r)} (l : list row) :
  pairwise R l = true -> pairwise R (filter Q l) = true.
Proof.
  induction l as [|r l IH]; [done|]. cbn [pairwise].
  intros [Hr Hl]%andb_prop.
  rewrite filter_cons. destruct (decide (Q r)); [|by apply IH].
  cbn [pairwise]. by rewrite forallb_filter, IH.
Qed.

Lemma pairwise_snoc (R : row -> row -> bool) (l : list row) (x : row) :
  pairwise R l = true -> forallb (fun r => R r x) l = true ->
  pairwise R (l ++ [x]) = true.
Proof.
  induction l as [|r l IH]; [done|]. cbn.
  intros [Hr Hl]%andb_prop [Hx Hlx]%andb_prop.
  rewrite IH by done. rewrite forallb_app, Hr. cbn. by rewrite Hx.
Qed.

Lemma same_text_sym (a b : sqlval) :
  Sqlite.same_text a b = Sqlite.same_text b a.
Proof.
  destruct a as [x|], b as [y|]; cbn; try done.
  apply bool_decide_ext. split; congruence.
Qed.

Lemma replace_into_ok (t : table) (vt vc vu vts vh : sqlval) :
  table_ok t = true ->
  table_ok (Sqlite.replace_into t vt vc vu vts vh) = true.
Proof.
  unfold table_ok. intros H.
  apply andb_prop in H as [H Hids]. apply andb_prop in H as [H Hpw].
  apply andb_prop in H as [Hu Hh].
  unfold Sqlite.replace_into. cbn [declared rows sequence].
  rewrite Hu, Hh. cbn [andb].
  set (new := {| id := sequence t + 1; title := vt; content := vc;
                 url := vu; timestamp := vts; data_hash := vh |}).
  apply andb_true_intro. split.
  - apply pairwise_snoc; [by apply pairwise_filter|].
    revert Hids. clear Hpw. induction (rows t) as [|r l IH]; [done|].
    cbn [forallb]. intros [Hr Hl]%andb_prop.
    rewrite filter_cons. case_decide as Hc; [|by apply IH].
    cbn [forallb]. rewrite IH by done. rewrite andb_true_r.
    unfold Sqlite.conflicts in Hc. rewrite Hu, Hh in Hc.
    cbn [andb] in Hc. apply orb_false_elim in Hc as [Hc1 Hc2].
    unfold compatible.
    rewrite (same_text_sym (url r)), (same_text_sym (data_hash r)).
    rewrite Hc1, Hc2. subst new. cbn [id negb]. rewrite !andb_true_r. lia.
  - rewrite forallb_app. apply andb_true_intro. split.
    + apply forallb_filter. clear Hpw.
      revert Hids. induction (rows t) as [|r l IH]; [done|].
      cbn [forallb]. intros [Hr Hl]%andb_prop. rewrite IH by done.
      rewrite andb_true_r. lia.
    + subst new. cbn [forallb id]. rewrite andb_true_r. lia.
Qed.

Lemma table_ok_rows_for (t : table) (u : pystr) :
  table_ok t = true -> (length (rows_for u t) <= 1)%nat.
Proof.
  unfold table_ok, rows_for. intros H.
  apply andb_prop in H as [H _]. apply andb_prop in H as [_ Hpw].
  induction (rows t) as [|r l IH]; [cbn; lia|].
  cbn [pairwise] in Hpw. apply andb_prop in Hpw as [Hr Hl].
  rewrite filter_cons. case_decide as Hu; [|by apply IH].
  assert (Hnone : filter (fun r => url r = Some u) l = []).
  { clear IH Hl. induction l as [|r' l IH]; [done|].
    cbn [forallb] in Hr. apply andb_prop in Hr as [Hr' Hr].
    rewrite filter_cons. case_decide as Hu'; [|by apply IH].
    unfold compatible in Hr'. rewrite Hu, Hu', same_text_refl in Hr'.
    cbn in Hr'. by rewrite andb_false_r in Hr'. }
  by rewrite Hnone.
Qed.

Lemma table_ok_rows_hash (t : table) (h : pystr) :
  table_ok t = true ->
  (length (filter (fun r => data_hash r = Some h) (rows t)) <= 1)%nat.
Proof.
  unfold table_ok. intros H.
  apply andb_prop in H as [H _]. apply andb_prop in H as [_ Hpw].
  induction (rows t) as [|r l IH]; [cbn; lia|].
  cbn [pairwise] in Hpw. apply andb_prop in Hpw as [Hr Hl].
  rewrite filter_cons. case_decide as Hu; [|by apply IH].
  assert (Hnone : filter (fun r => data_hash r = Some h) l = []).
  { clear IH Hl. induction l as [|r' l IH]; [done|].
    cbn [forallb] in Hr. apply andb_prop in Hr as [Hr' Hr].
    rewrite filter_cons. case_decide as Hu'; [|by apply IH].
    unfold compatible in Hr'. rewrite Hu, Hu', same_text_refl in Hr'.
    cbn in Hr'. by rewrite andb_false_r in Hr'. }
  by rewrite Hnone.
Qed.

(** What a load does to the tables: nothing, or a REPLACE into the table
    of the scraper's database. *)
Lemma load_data_tables (e : env) (self : WebScraper) (data : option dict)
    (w : world) :
  tables (load_data e self data w).2 = tables w \/
  exists t vt vc vu vts vh,
    tables w !! db_name self = Some t /\
    tables (load_data e self data w).2
    = <[db_name self := Sqlite.replace_into t vt vc vu vts vh]> (tables w).
Proof.
  destruct (load_data_returns e self data w) as [[|] Hb].
  - right. destruct (load_data_true e self data w Hb)
      as (d & t & pt & pc & pu & pts & ph & vt & vc & vu & vts & vh
          & _ & Htab & _ & _ & _ & _ & _ & _ & _ & _ & _ & _ & Hw).
    by exists t, vt, vc, vu, vts, vh.
  - left. by apply load_data_false_tables.
Qed.

Lemma world_ok_insert (w : world) (name : pystr) (t : table) (tbls : gmap pystr table) :
  world_ok w -> table_ok t = true -> tbls = <[name := t]> (tables w) ->
  forall n t', tbls !! n = Some t' -> table_ok t' = true.
Proof.
  intros Hw Ht -> n t'. rewrite lookup_insert. case_decide.
  - by intros [= <-].
  - apply Hw.
Qed.

Lemma load_data_world_ok (e : env) (self : WebScraper) (data : option dict)
    (w : world) :
  world_ok w -> world_ok (load_data e self data w).2.
Proof.
  intros Hw.
  destruct (load_data_tables e self data w)
    as [Heq|(t & vt & vc & vu & vts & vh & Htab & Heq)]; unfold world_ok.
  - by rewrite Heq.
  - eapply world_ok_insert; [done| |done].
    apply replace_into_ok. by eapply Hw.
Qed.

Lemma run_pipeline_world_ok (e : env) (self : WebScraper) (u : pystr)
    (w : world) :
  world_ok w -> world_ok (run_pipeline e self u w).2.
Proof.
  intros Hw.
  destruct (run_pipeline_factor e self u w)
    as (w2 & evs & _ & Htab & _ & _ & Hrun).
  assert (Hw2 : world_ok w2) by (unfold world_ok; by rewrite Htab).
  rewrite Hrun. destruct (cleaned_page e u); [|done].
  by apply load_data_world_ok.
Qed.

(** What the constructor does to the tables: nothing, or the creation of
    the new table where there was none. *)
Lemma init_tables (e : env) (name : pystr) (w : world) :
  tables (init e name w).2 = tables w \/
  tables w !! name = None /\
  tables (init e name w).2 = <[name := new_table]> (tables w).
Proof.
  unfold new_table. run_py.
  destruct (sqlite_fault e AtConnect); cbn; [by left|].
  destruct (sqlite_fault e AtExecute); cbn; [by left|].
  destruct (Sqlite.transient name || bool_decide (name ∈ views w)); cbn;
    [destruct (sqlite_fault e AtCommit); cbn; auto|].
  destruct (tables w !! name) eqn:Ht; cbn;
    destruct (sqlite_fault e AtCommit); cbn; auto.
Qed.

Lemma init_world_ok (e : env) (name : pystr) (w : world) :
  world_ok w -> world_ok (init e name w).2.
Proof.
  intros Hw. destruct (init_tables e name w) as [Heq|[_ Heq]];
    unfold world_ok.
  - by rewrite Heq.
  - eapply world_ok_insert; [done| |done]. vm_compute. reflexivity.
Qed.

(** *** What a run stores, and when *)

Lemma cleaned_raw_record (e : env) (u : pystr) (soup : Soup) :
  cleaned (raw_record e u soup)
  = match title_of soup, encode (hashed_text u soup) with
    | PyStr t, Some bs =>
        Some (<["data_hash" := PyStr (MD5.hexdigest bs)]>
              (<["title" := PyStr (strip t)]>
              (<["content" := PyStr (page_content soup)]>
              (<["url" := PyStr u]>
              (<["timestamp" := PyStr (datetime_now e)]> ∅)))))
    | _, _ => None
    end.
Proof.
  unfold cleaned, raw_record, title_of, hashed_text, page_content,
    clean_content.
  rewrite lookup_insert_ne, lookup_insert_eq by done.
  rewrite !lookup_insert_ne, lookup_insert_eq by done.
  rewrite lookup_insert_eq.
  rewrite !lookup_insert_ne, lookup_insert_eq by done.
  destruct (match soup_title soup with
            | Some t => tag_string t
            | None => PyStr []
            end) as [|t]; [done|]. cbn [format].
  by destruct (encode _).
Qed.

Lemma storable_PyStr (s : pystr) :
  storable (PyStr s) = true <-> is_Some (encode s).
Proof.
  cbn. destruct (encode s); split; (done || by intros [? ?] || by eexists).
Qed.

Lemma loadable_cleaned (t c u ts : pystr) (bs : list Z) :
  loadable (<["data_hash" := PyStr (MD5.hexdigest bs)]>
            (<["title" := PyStr t]>
            (<["content" := PyStr c]>
            (<["url" := PyStr u]>
            (<["timestamp" := PyStr ts]> ∅))))) = true
  <-> is_Some (encode t) /\ is_Some (encode c) /\ is_Some (encode u)
      /\ is_Some (encode ts).
Proof.
  unfold loadable, record_fields. cbn [forallb].
  rewrite !lookup_insert_ne, lookup_insert_eq by done.
  rewrite !lookup_insert_ne, lookup_insert_eq by done.
  rewrite !lookup_insert_ne, lookup_insert_eq by done.
  rewrite !lookup_insert_ne, lookup_insert_eq by done.
  rewrite lookup_insert_eq.
  rewrite !andb_true_iff, !storable_PyStr.
  pose proof (hexdigest_encodable bs). tauto.
Qed.

Lemma cleaned_page_Some (e : env) (u : pystr) (cd : dict) :
  cleaned_page e u = Some cd <->
  exists r soup t bs,
    requests_get e u = Ret r /\ error_status r = false /\
    html_parser e (body r) = Ret soup /\
    title_of soup = PyStr t /\
    encode (hashed_text u soup) = Some bs /\
    cd = <["data_hash" := PyStr (MD5.hexdigest bs)]>
         (<["title" := PyStr (strip t)]>
         (<["content" := PyStr (page_content soup)]>
         (<["url" := PyStr u]>
         (<["timestamp" := PyStr (datetime_now e)]> ∅)))).
Proof.
  unfold cleaned_page. split.
  - destruct (requests_get e u) as [r|ex] eqn:Hr; [|done].
    destruct (error_status r) eqn:Hs; [done|].
    destruct (html_parser e (body r)) as [soup|ex] eqn:Hp; [|done].
    rewrite cleaned_raw_record.
    destruct (title_of soup) as [|t] eqn:Ht; [done|].
    destruct (encode (hashed_text u soup)) as [bs|] eqn:He; [|done].
    intros [= <-]. by exists r, soup, t, bs.
  - intros (r & soup & t & bs & -> & -> & -> & Ht & He & ->).
    by rewrite cleaned_raw_record, Ht, He.
Qed.

(** A run succeeds exactly when the loader goes through on the cleaned
    page. *)
Lemma run_pipeline_result (e : env) (self : WebScraper) (u : pystr)
    (w : world) :
  (run_pipeline e self u w).1
  = Ret match cleaned_page e u with
        | Some cd => load_goes_through e self (Some cd) w
        | None => false
        end.
Proof.
  destruct (run_pipeline_factor e self u w)
    as (w2 & evs & _ & Htab & _ & _ & ->).
  destruct (cleaned_page e u) as [cd|]; [|done].
  rewrite load_data_result. unfold load_goes_through. by rewrite Htab.
Qed.

(** X4.  When a run succeeds.  [run_pipeline] returns [True] exactly
    when the request returns a response whose status is not 4xx or 5xx,
    the parser accepts the body, the title read off the document is a
    string (no title element, or one with a single text child), the URL,
    the stripped title, the cleaned content and the timestamp are all
    text UTF-8 can encode, the storage engine reports no error, and the
    scraper's database has a [web_data] table that is not full. *)
Theorem run_pipeline_succeeds_iff (e : env) (self : WebScraper) (u : pystr)
    (w : world) :
  (run_pipeline e self u w).1 = Ret true <->
  exists r soup t tbl,
    requests_get e u = Ret r /\ error_status r = false /\
    html_parser e (body r) = Ret soup /\
    title_of soup = PyStr t /\
    is_Some (encode u) /\ is_Some (encode (strip t)) /\
    is_Some (encode (page_content soup)) /\
    is_Some (encode (datetime_now e)) /\
    first_fault e = None /\
    tables w !! db_name self = Some tbl /\
    sequence tbl <> Sqlite.max_rowid.
Proof.
  rewrite run_pipeline_result. split.
  - destruct (cleaned_page e u) as [cd|] eqn:Hcp; [|done].
    apply cleaned_page_Some in Hcp
      as (r & soup & t & bs & Hr & Hs & Hp & Ht & He & ->).
    unfold load_goes_through. intros [= H].
    apply andb_prop in H as [H Htab]. apply andb_prop in H as [_ Hf].
    destruct (first_fault e) eqn:Hff; [done|].
    destruct (tables w !! db_name self) as [tbl|] eqn:Htbl; [|done].
    apply andb_prop in Htab as [Hl Hseq]. cbn [from_option Datatypes.id] in Hl.
    apply loadable_cleaned in Hl as (H1 & H2 & H3 & H4).
    exists r, soup, t, tbl. repeat (split; [done|]).
    apply negb_true_iff, Z.eqb_neq in Hseq. done.
  - intros (r & soup & t & tbl & Hr & Hs & Hp & Ht & Hu & Hst & Hc & Hn
            & Hff & Htbl & Hseq).
    assert (He : is_Some (encode (hashed_text u soup))).
    { apply encode_app. split; [done|]. by apply encode_take. }
    destruct He as [bs He].
    assert (Hcp : cleaned_page e u
                  = Some (<["data_hash" := PyStr (MD5.hexdigest bs)]>
                          (<["title" := PyStr (strip t)]>
                          (<["content" := PyStr (page_content soup)]>
                          (<["url" := PyStr u]>
                          (<["timestamp" := PyStr (datetime_now e)]> ∅)))))).
    { apply cleaned_page_Some. by exists r, soup, t, bs. }
    rewrite Hcp. unfold load_goes_through. rewrite Hff, Htbl.
    rewrite truthy_insert. cbn [from_option Datatypes.id andb].
    rewrite (proj2 (loadable_cleaned _ _ _ _ _)) by done.
    apply Z.eqb_neq in Hseq. by rewrite Hseq.
Qed.

Lemma same_text_false (a : sqlval) (u : pystr) :
  Sqlite.same_text (Some u) a = false <-> a <> Some u.
Proof.
  destruct a as [x|]; cbn; [|done].
  rewrite bool_decide_eq_false. split; congruence.
Qed.

(** The rows a REPLACE leaves in a table declared like the one of
    [setup_database]: those that share neither the url nor the
    fingerprint of the new row, in their order, then the new row. *)
Lemma replace_into_rows (t : table) (vt vc vts : sqlval) (u h : pystr) :
  declared t = Sqlite.web_data_schema ->
  rows (Sqlite.replace_into t vt vc (Some u) vts (Some h))
  = filter (fun r => url r <> Some u /\ data_hash r <> Some h) (rows t)
    ++ [ {| id := sequence t + 1; title := vt; content := vc;
            url := Some u; timestamp := vts; data_hash := Some h |} ].
Proof.
  intros Hd. unfold Sqlite.replace_into. cbn [rows]. f_equal.
  apply list_filter_iff. intros r. unfold Sqlite.conflicts.
  rewrite Hd. cbn [Sqlite.web_data_schema unique_url unique_data_hash andb
                   url data_hash].
  rewrite orb_false_iff, !same_text_false. done.
Qed.

(** What a successful run has stored, in terms of the page. *)
Lemma run_pipeline_stored (e : env) (self : WebScraper) (u : pystr)
    (w : world) :
  (run_pipeline e self u w).1 = Ret true ->
  exists r soup t bs tbl,
    requests_get e u = Ret r /\ html_parser e (body r) = Ret soup /\
    title_of soup = PyStr t /\
    encode (hashed_text u soup) = Some bs /\
    tables w !! db_name self = Some tbl /\
    tables (run_pipeline e self u w).2
    = <[db_name self :=
          Sqlite.replace_into tbl (Some (strip t))
            (Some (page_content soup)) (Some u) (Some (datetime_now e))
            (Some (MD5.hexdigest bs))]> (tables w).
Proof.
  intros Hrun.
  destruct (run_pipeline_factor e self u w)
    as (w2 & evs & _ & Htab & _ & _ & Heq).
  rewrite Heq in Hrun |- *.
  destruct (cleaned_page e u) as [cd|] eqn:Hcp; [|done].
  apply cleaned_page_Some in Hcp
    as (r & soup & t & bs & Hr & _ & Hp & Ht & He & ->).
  destruct (load_data_true _ _ _ _ Hrun)
    as (d & tbl & pt & pc & pu & pts & ph & vt & vc & vu & vts & vh
        & [= <-] & Htbl & Hpt & Hvt & Hpc & Hvc & Hpu & Hvu & Hpts & Hvts
        & Hph & Hvh & Hw).
  apply bind_param_to_sql in Hvt, Hvc, Hvu, Hvts, Hvh. subst.
  rewrite !lookup_insert_ne, lookup_insert_eq in Hpt by done.
  rewrite !lookup_insert_ne, lookup_insert_eq in Hpc by done.
  rewrite !lookup_insert_ne, lookup_insert_eq in Hpu by done.
  rewrite !lookup_insert_ne, lookup_insert_eq in Hpts by done.
  rewrite lookup_insert_eq in Hph. simplify_eq.
  exists r, soup, t, bs, tbl. rewrite <- Htab. by rewrite Hw.
Qed.

Lemma loadable_Forall (d : dict) :
  loadable d = true <->
  Forall (fun k => exists v, d !! k = Some v /\ storable v = true)
    record_fields.
Proof.
  unfold loadable. induction record_fields as [|k ks IH]; cbn [forallb].
  - split; [constructor|done].
  - rewrite andb_true_iff, IH, Forall_cons. apply and_iff_compat_r.
    destruct (d !! k) as [v|]; split.
    + intros Hv. by exists v.
    + by intros (v' & [= <-] & Hv).
    + done.
    + by intros (v' & ? & _).
Qed.

(** X1.  [load_data] never raises.  It returns [True] exactly when it is
    given a dict that holds all five fields, each [None] or a string
    UTF-8 can encode, the storage engine reports no error, and the
    database has a [web_data] table that is not full; whenever it returns
    [False], every table is as it was. *)
Theorem load_data_succeeds_iff (e : env) (self : WebScraper)
    (data : option dict) (w : world) :
  (exists b, (load_data e self data w).1 = Ret b) /\
  ((load_data e self data w).1 = Ret true <->
   exists d t,
     data = Some d /\
     Forall (fun k => exists v, d !! k = Some v /\ storable v = true)
       record_fields /\
     first_fault e = None /\
     tables w !! db_name self = Some t /\
     sequence t <> Sqlite.max_rowid) /\
  ((load_data e self data w).1 = Ret false ->
   tables (load_data e self data w).2 = tables w).
Proof.
  split; [apply load_data_returns|]. split; [|apply load_data_false_tables].
  rewrite load_data_result. unfold load_goes_through. split.
  - intros [= H]. apply andb_prop in H as [H Htab].
    apply andb_prop in H as [Ht Hf].
    destruct data as [d|]; [|done].
    destruct (first_fault e); [done|].
    destruct (tables w !! db_name self) as [t|]; [|done].
    apply andb_prop in Htab as [Hl Hseq].
    exists d, t. split; [done|]. split; [by apply loadable_Forall|].
    split; [done|]. split; [done|].
    by apply negb_true_iff, Z.eqb_neq in Hseq.
  - intros (d & t & -> & Hl & -> & -> & Hseq).
    apply loadable_Forall in Hl. cbn [from_option Datatypes.id].
    rewrite Hl. apply Z.eqb_neq in Hseq. rewrite Hseq.
    assert (Hne : d <> ∅).
    { intros ->. apply loadable_Forall in Hl.
      inversion_clear Hl as [|?? (v & Hv & _) _].
      by rewrite lookup_empty in Hv. }
    cbn. by rewrite bool_decide_eq_false_2.
Qed.

(** X1, exercised: the cleaned record of the example page loads into the
    table a fresh constructor leaves. *)
Lemma load_data_succeeds_iff_witness :
  (load_data Scenario.ok_env Scenario.scraper (Some example_cleaned)
     Scenario.ready_world).1 = Ret true.
Proof.
  apply (proj1 (proj2 (load_data_succeeds_iff Scenario.ok_env
                         Scenario.scraper (Some example_cleaned)
                         Scenario.ready_world))).
  exists example_cleaned, new_table.
  split; [reflexivity|]. split.
  - repeat constructor; eexists; (split; [vm_compute; reflexivity|]);
      vm_compute; reflexivity.
  - split; [reflexivity|]. split; [vm_compute; reflexivity|].
    vm_compute. discriminate.
Defined.

(** X2.  In a table declared as [setup_database] declares it, a
    successful load of a record with url [u] and fingerprint [h] removes
    exactly the stored rows that have url [u] or fingerprint [h], also a
    row of another URL with that fingerprint, keeps all the others in
    their order, and adds the record's row at the end with the next id. *)
Theorem load_data_replaces_colliding_rows (e : env) (self : WebScraper)
    (d : dict) (w : world) (t : table) (u h : pystr) :
  tables w !! db_name self = Some t ->
  declared t = Sqlite.web_data_schema ->
  d !! "url" = Some (PyStr u) ->
  d !! "data_hash" = Some (PyStr h) ->
  (load_data e self (Some d) w).1 = Ret true ->
  exists t' new,
    tables (load_data e self (Some d) w).2 !! db_name self = Some t' /\
    declared t' = Sqlite.web_data_schema /\
    sequence t' = sequence t + 1 /\
    rows t'
    = filter (fun r => url r <> Some u /\ data_hash r <> Some h) (rows t)
      ++ [new] /\
    id new = sequence t + 1 /\ url new = Some u /\ data_hash new = Some h.
Proof.
  intros Htab Hd Hu Hh Hload.
  destruct (load_data_true e self (Some d) w Hload)
    as (d' & t' & pt & pc & pu & pts & ph & vt & vc & vu & vts & vh
        & [= <-] & Htab' & Hpt & Hvt & Hpc & Hvc & Hpu & Hvu & Hpts & Hvts
        & Hph & Hvh & Hw).
  rewrite Htab in Htab'. injection Htab' as <-.
  rewrite Hu in Hpu. injection Hpu as <-.
  rewrite Hh in Hph. injection Hph as <-.
  apply bind_param_to_sql in Hvu, Hvh. subst vu vh. cbn [to_sql] in Hw.
  eexists _, _. split; [by rewrite Hw, lookup_insert_eq|].
  split; [done|]. split; [done|].
  split; [by apply replace_into_rows|]. done.
Qed.

(** X2, exercised: loading the cleaned record of the example page into
    the crowded table removes the first two rows and keeps the third. *)
Lemma load_data_replaces_colliding_rows_witness :
  exists t' new,
    tables (load_data Scenario.ok_env Scenario.scraper (Some example_cleaned)
              crowded_world).2 !! db_name Scenario.scraper = Some t' /\
    declared t' = Sqlite.web_data_schema /\
    sequence t' = 3 + 1 /\
    rows t'
    = filter (fun r => url r <> Some Scenario.example_url /\
                       data_hash r
                       <> Some (lit "735ab94d88d955af9c74222902ba9cc7"))
        (rows crowded_table) ++ [new] /\
    id new = 3 + 1 /\ url new = Some Scenario.example_url /\
    data_hash new = Some (lit "735ab94d88d955af9c74222902ba9cc7").
Proof.
  apply (load_data_replaces_colliding_rows Scenario.ok_env Scenario.scraper
           example_cleaned crowded_world crowded_table).
  - reflexivity.
  - reflexivity.
  - vm_compute. reflexivity.
  - vm_compute. reflexivity.
  - vm_compute. reflexivity.
Defined.

(** X3.  The storage invariant.  If every table of the world is well
    formed (declared with both UNIQUE columns, no two rows with the same
    url or the same fingerprint, ids increasing in insertion order and
    bounded by the recorded sequence), it is so after the constructor,
    after a load and after a run, whatever they are given and whatever
    the outside does; and a well-formed table has at most one row per url
    and per fingerprint. *)
Theorem storage_invariant_kept (w : world) :
  world_ok w ->
  (forall e name, world_ok (init e name w).2) /\
  (forall e self data, world_ok (load_data e self data w).2) /\
  (forall e self u, world_ok (run_pipeline e self u w).2) /\
  (forall name t u h,
     tables w !! name = Some t ->
     (length (rows_for u t) <= 1)%nat /\
     (length (filter (fun r => data_hash r = Some h) (rows t)) <= 1)%nat).
Proof.
  intros Hw. split; [intros; by apply init_world_ok|].
  split; [intros; by apply load_data_world_ok|].
  split; [intros; by apply run_pipeline_world_ok|].
  intros name t u h Ht. apply Hw in Ht.
  split; [by apply table_ok_rows_for|by apply table_ok_rows_hash].
Qed.

(** X3, exercised on the crowded table. *)
Lemma storage_invariant_kept_witness :
  world_ok (run_pipeline Scenario.ok_env Scenario.scraper
              Scenario.example_url crowded_world).2.
Proof.
  apply (storage_invariant_kept crowded_world).
  intros name t. unfold crowded_world. cbn [tables].
  rewrite lookup_singleton. case_decide; [|done].
  intros [= <-]. vm_compute. reflexivity.
Defined.

(** X4, exercised on the example page. *)
Lemma run_pipeline_succeeds_iff_witness :
  (run_pipeline Scenario.ok_env Scenario.scraper Scenario.example_url
     Scenario.ready_world).1 = Ret true.
Proof.
  apply (proj2 (run_pipeline_succeeds_iff Scenario.ok_env Scenario.scraper
                  Scenario.example_url Scenario.ready_world)).
  exists {| status_code := 200; body := Scenario.page |}, Scenario.page_soup,
    (lit "T"), new_table.
  split; [reflexivity|]. split; [reflexivity|]. split; [reflexivity|].
  split; [reflexivity|].
  split; [vm_compute; by eexists|]. split; [vm_compute; by eexists|].
  split; [vm_compute; by eexists|]. split; [vm_compute; by eexists|].
  split; [reflexivity|]. split; [vm_compute; reflexivity|].
  vm_compute. discriminate.
Defined.

Lemma page_content_length (soup : Soup) :
  (length (page_content soup) <= 1000)%nat.
Proof.
  unfold page_content, clean_content, split. change (lit " ") with [space].
  etrans; [apply join_split_from_length|].
  unfold slice_to. rewrite length_take. cbn [length]. lia.
Qed.

Lemma clean_content_non_space (c : pystr) :
  non_space (clean_content c) = non_space c.
Proof.
  unfold clean_content, split. change (lit " ") with [space].
  rewrite non_space_join by (by apply split_from_words).
  by rewrite mjoin_split_from.
Qed.

(** X5.  What a successful run stores.  The table of the scraper's
    database gets one new last row, with the next id, whose title is the
    page title stripped, whose content is the cleaned first 1000
    characters of the page text (at most 1000 characters, with the same
    non-whitespace characters as that prefix), whose url is the URL given,
    whose timestamp is the time of the call and whose fingerprint is the
    MD5 hex digest of the hashed text, 32 lowercase hex digits. *)
Theorem run_pipeline_stores_page (e : env) (self : WebScraper) (u : pystr)
    (w : world) (r : Response) (soup : Soup) (tbl : table) :
  requests_get e u = Ret r ->
  html_parser e (body r) = Ret soup ->
  tables w !! db_name self = Some tbl ->
  (run_pipeline e self u w).1 = Ret true ->
  exists t bs tbl' new,
    title_of soup = PyStr t /\
    encode (hashed_text u soup) = Some bs /\
    tables (run_pipeline e self u w).2 !! db_name self = Some tbl' /\
    last (rows tbl') = Some new /\
    id new = sequence tbl + 1 /\
    title new = Some (strip t) /\
    content new = Some (page_content soup) /\
    url new = Some u /\
    timestamp new = Some (datetime_now e) /\
    data_hash new = Some (MD5.hexdigest bs) /\
    (length (page_content soup) <= 1000)%nat /\
    non_space (page_content soup)
    = non_space (slice_to 1000 (get_text soup)) /\
    length (MD5.hexdigest bs) = 32%nat /\
    Forall (fun c => is_hex_digit c = true) (MD5.hexdigest bs).
Proof.
  intros Hr Hp Htbl Hrun.
  destruct (run_pipeline_stored e self u w Hrun)
    as (r' & soup' & t & bs & tbl0 & Hr' & Hp' & Ht & He & Htbl' & Hw).
  rewrite Hr in Hr'. injection Hr' as <-.
  rewrite Hp in Hp'. injection Hp' as <-.
  rewrite Htbl in Htbl'. injection Htbl' as <-.
  exists t, bs. eexists _, _. split; [done|]. split; [done|].
  split; [by rewrite Hw, lookup_insert_eq|].
  split; [unfold Sqlite.replace_into; cbn [rows]; by rewrite last_snoc|].
  cbn [id title content url timestamp data_hash].
  repeat (split; [done|]).
  split; [apply page_content_length|].
  split; [apply clean_content_non_space|]. apply hexdigest_format.
Qed.

(** X5, exercised on the example page. *)
Lemma run_pipeline_stores_page_witness :
  exists t bs tbl' new,
    title_of Scenario.page_soup = PyStr t /\
    encode (hashed_text Scenario.example_url Scenario.page_soup) = Some bs /\
    tables (run_pipeline Scenario.ok_env Scenario.scraper
              Scenario.example_url Scenario.ready_world).2
      !! db_name Scenario.scraper = Some tbl' /\
    last (rows tbl') = Some new /\
    id new = sequence new_table + 1 /\
    title new = Some (strip t) /\
    content new = Some (page_content Scenario.page_soup) /\
    url new = Some Scenario.example_url /\
    timestamp new = Some (datetime_now Scenario.ok_env) /\
    data_hash new = Some (MD5.hexdigest bs) /\
    (length (page_content Scenario.page_soup) <= 1000)%nat /\
    non_space (page_content Scenario.page_soup)
    = non_space (slice_to 1000 (get_text Scenario.page_soup)) /\
    length (MD5.hexdigest bs) = 32%nat /\
    Forall (fun c => is_hex_digit c = true) (MD5.hexdigest bs).
Proof.
  apply (run_pipeline_stores_page Scenario.ok_env Scenario.scraper
           Scenario.example_url Scenario.ready_world
           {| status_code := 200; body := Scenario.page |}).
  - reflexivity.
  - reflexivity.
  - vm_compute. reflexivity.
  - vm_compute. reflexivity.
Defined.

Lemma run_pipeline_events (e : env) (self : WebScraper) (u : pystr)
    (w : world) :
  exists evs,
    trace (run_pipeline e self u w).2 = trace w ++ evs /\
    http_gets evs = [u] /\
    connects evs
    = match cleaned_page e u with Some _ => [db_name self] | None => [] end.
Proof.
  destruct (run_pipeline_factor e self u w)
    as (w2 & evs & Htr & _ & Hg & Hc & ->).
  destruct (cleaned_page e u) as [cd|] eqn:Hcp; [|by exists evs].
  destruct (load_data_events e self (Some cd) w2) as (ev3 & Ht3 & Hg3 & Hc3).
  assert (Htruthy : truthy (Some cd) = true).
  { apply cleaned_page_Some in Hcp as (?&?&?&?&?&?&?&?&?& ->).
    apply truthy_insert. }
  rewrite Htruthy in Hc3.
  exists (evs ++ ev3). rewrite Ht3, Htr, <- app_assoc.
  rewrite http_gets_app, connects_app, Hg, Hc, Hg3, Hc3. done.
Qed.

Lemma run_pipeline_other_tables (e : env) (self : WebScraper) (u : pystr)
    (w : world) (name : pystr) :
  name <> db_name self ->
  tables (run_pipeline e self u w).2 !! name = tables w !! name.
Proof.
  intros Hne.
  destruct (run_pipeline_factor e self u w)
    as (w2 & evs & _ & Htab & _ & _ & ->).
  destruct (cleaned_page e u) as [cd|]; [|cbn; by rewrite Htab].
  destruct (load_data_tables e self (Some cd) w2)
    as [->|(t & vt & vc & vu & vts & vh & _ & ->)].
  - by rewrite Htab.
  - rewrite lookup_insert_ne by congruence. by rewrite Htab.
Qed.

(** X6.  What a run does to the outside.  It requests the URL exactly
    once, and no other URL.  It calls [sqlite3.connect] once, for the
    scraper's database, exactly when the fetch, the parse and the
    transformation yield a record, and not at all otherwise.  It leaves the
    tables of every other database file as they were, and every table
    when it returns [False]. *)
Theorem run_pipeline_effects (e : env) (self : WebScraper) (u : pystr)
    (w : world) :
  (exists evs,
     trace (run_pipeline e self u w).2 = trace w ++ evs /\
     http_gets evs = [u] /\
     connects evs
     = match cleaned_page e u with
       | Some _ => [db_name self]
       | None => []
       end) /\
  (forall name, name <> db_name self ->
     tables (run_pipeline e self u w).2 !! name = tables w !! name) /\
  ((run_pipeline e self u w).1 = Ret false ->
   tables (run_pipeline e self u w).2 = tables w).
Proof.
  split; [apply run_pipeline_events|].
  split; [intros name; apply run_pipeline_other_tables|].
  apply run_pipeline_false_tables.
Qed.

(** X6, exercised: a run against the 404 endpoint changes no table. *)
Lemma run_pipeline_effects_witness :
  tables (run_pipeline Scenario.not_found_env Scenario.scraper
            Scenario.example_url crowded_world).2 = tables crowded_world.
Proof.
  apply (proj2 (proj2 (run_pipeline_effects Scenario.not_found_env
                         Scenario.scraper Scenario.example_url
                         crowded_world))).
  vm_compute. reflexivity.
Defined.

(** X7.  A title element without a single text child.  When the response
    is accepted and parsed and the document has a title element whose
    [.string] is [None], the extractor returns a record whose title is
    [None], the transformer turns it into [None], and the run returns
    [False] without a call of [sqlite3.connect] or a change to a table. *)
Theorem title_without_text_fails (e : env) (self : WebScraper) (u : pystr)
    (w : world) (r : Response) (soup : Soup) (tag : Tag) :
  requests_get e u = Ret r ->
  error_status r = false ->
  html_parser e (body r) = Ret soup ->
  soup_title soup = Some tag ->
  tag_string tag = PyNone ->
  (exists raw,
     (extract_data e self u w).1 = Ret (Some raw) /\
     raw !! "title" = Some PyNone /\
     forall w', (transform_data self (Some raw) w').1 = Ret None) /\
  (run_pipeline e self u w).1 = Ret false /\
  tables (run_pipeline e self u w).2 = tables w /\
  exists evs,
    trace (run_pipeline e self u w).2 = trace w ++ evs /\
    connects evs = [].
Proof.
  intros Hr Hs Hp Ht Hstr.
  assert (Hcp : cleaned_page e u = None).
  { unfold cleaned_page. rewrite Hr, Hs, Hp, cleaned_raw_record.
    unfold title_of. by rewrite Ht, Hstr. }
  assert (Hrun : (run_pipeline e self u w).1 = Ret false)
    by (by rewrite run_pipeline_result, Hcp).
  split.
  - exists (raw_record e u soup).
    split; [by rewrite extract_data_result, Hr, Hs, Hp|].
    split.
    + unfold raw_record. rewrite Ht, Hstr.
      by rewrite lookup_insert_ne, lookup_insert_eq.
    + intros w'. rewrite transform_data_result, raw_record_truthy.
      cbn [from_option Datatypes.id]. rewrite cleaned_raw_record.
      unfold title_of. by rewrite Ht, Hstr.
  - split; [done|]. split; [by apply run_pipeline_false_tables|].
    destruct (run_pipeline_events e self u w) as (evs & Htr & _ & Hc).
    rewrite Hcp in Hc. by exists evs.
Qed.

(** X7, exercised on a page with an empty title element. *)
Lemma title_without_text_fails_witness :
  (run_pipeline untitled_env Scenario.scraper Scenario.example_url
     Scenario.ready_world).1 = Ret false.
Proof.
  apply (title_without_text_fails untitled_env Scenario.scraper
           Scenario.example_url Scenario.ready_world
           {| status_code := 200;
              body := lit "<html><title></title><body>x</body></html>" |}
           {| soup_title := Some {| tag_string := PyNone |};
              get_text := lit "x" |}
           {| tag_string := PyNone |}); reflexivity.
Defined.

Lemma filter_none (P : row -> Prop) `{!forall r, Decision (P r)}
    (l : list row) :
  (forall r, r ∈ l -> ~ P r) -> filter P l = [].
Proof.
  induction l as [|r l IH]; [done|]. intros Hall.
  rewrite filter_cons_False by (apply Hall; left).
  apply IH. intros r' Hr'. apply Hall. by right.
Qed.

(** X8.  The fingerprint hashes the URL and the content prefix joined
    without a separator, and the table declares it unique.  So when two
    different URLs are fetched one after the other, both runs succeed,
    and the URL followed by the first 100 characters of cleaned content
    is the same text for both, the second run deletes the row stored for
    the first URL. *)
Theorem fingerprint_collision_deletes_row (e1 e2 : env) (self : WebScraper)
    (u1 u2 : pystr) (w : world) (tbl : table) (r1 r2 : Response)
    (soup1 soup2 : Soup) :
  tables w !! db_name self = Some tbl ->
  declared tbl = Sqlite.web_data_schema ->
  u1 <> u2 ->
  requests_get e1 u1 = Ret r1 -> html_parser e1 (body r1) = Ret soup1 ->
  requests_get e2 u2 = Ret r2 -> html_parser e2 (body r2) = Ret soup2 ->
  hashed_text u1 soup1 = hashed_text u2 soup2 ->
  (run_pipeline e1 self u1 w).1 = Ret true ->
  (run_pipeline e2 self u2 (run_pipeline e1 self u1 w).2).1 = Ret true ->
  exists t1 t2,
    tables (run_pipeline e1 self u1 w).2 !! db_name self = Some t1 /\
    length (rows_for u1 t1) = 1%nat /\
    tables (run_pipeline e2 self u2 (run_pipeline e1 self u1 w).2).2
      !! db_name self = Some t2 /\
    rows_for u1 t2 = [] /\
    length (rows_for u2 t2) = 1%nat.
Proof.
  intros Htbl Hd Hne Hr1 Hp1 Hr2 Hp2 Hh Hrun1 Hrun2.
  destruct (run_pipeline_stored e1 self u1 w Hrun1)
    as (r1' & soup1' & t1 & bs1 & tbl' & Hr1' & Hp1' & _ & He1 & Htbl' & Hw1).
  rewrite Hr1 in Hr1'. injection Hr1' as <-.
  rewrite Hp1 in Hp1'. injection Hp1' as <-.
  rewrite Htbl in Htbl'. injection Htbl' as <-.
  set (w1 := (run_pipeline e1 self u1 w).2) in *.
  set (tb1 := Sqlite.replace_into tbl (Some (strip t1))
                (Some (page_content soup1)) (Some u1)
                (Some (datetime_now e1)) (Some (MD5.hexdigest bs1))) in *.
  assert (Htb1 : tables w1 !! db_name self = Some tb1)
    by (by rewrite Hw1, lookup_insert_eq).
  destruct (run_pipeline_stored e2 self u2 w1 Hrun2)
    as (r2' & soup2' & t2 & bs2 & tb1' & Hr2' & Hp2' & _ & He2 & Htb1' & Hw2).
  rewrite Hr2 in Hr2'. injection Hr2' as <-.
  rewrite Hp2 in Hp2'. injection Hp2' as <-.
  rewrite Htb1 in Htb1'. injection Htb1' as <-.
  rewrite <- Hh, He1 in He2. injection He2 as <-.
  assert (Huq : unique_url (declared tbl) = true) by (by rewrite Hd).
  eexists tb1, _. split; [done|].
  split; [subst tb1; by rewrite replace_into_rows_for|].
  split; [by rewrite Hw2, lookup_insert_eq|].
  split; [|by rewrite replace_into_rows_for].
  unfold rows_for. rewrite replace_into_rows by done.
  apply filter_none. intros r Hr Hu.
  apply elem_of_app in Hr as [Hr|Hr].
  - apply list_elem_of_filter in Hr as [[_ Hhash] Hr].
    subst tb1. rewrite replace_into_rows in Hr by done.
    apply elem_of_app in Hr as [Hr|Hr].
    + apply list_elem_of_filter in Hr as [[Hu' _] _]. done.
    + apply list_elem_of_singleton in Hr as ->. done.
  - apply list_elem_of_singleton in Hr as ->. cbn in Hu. congruence.
Qed.

(** X8, exercised: [https://example.test/a] serving the text [b], then
    [https://example.test/ab] serving no text. *)
Lemma fingerprint_collision_deletes_row_witness :
  let e1 := text_env (lit "b") (lit "2024-01-01T00:00:00") in
  let e2 := text_env [] (lit "2024-01-01T00:00:01") in
  let u1 := lit "https://example.test/a" in
  let u2 := lit "https://example.test/ab" in
  let w1 := (run_pipeline e1 Scenario.scraper u1 Scenario.ready_world).2 in
  let w2 := (run_pipeline e2 Scenario.scraper u2 w1).2 in
  exists t1 t2,
    tables w1 !! db_name Scenario.scraper = Some t1 /\
    length (rows_for u1 t1) = 1%nat /\
    tables w2 !! db_name Scenario.scraper = Some t2 /\
    rows_for u1 t2 = [] /\
    length (rows_for u2 t2) = 1%nat.
Proof.
  cbv zeta.
  apply (fingerprint_collision_deletes_row
           (text_env (lit "b") (lit "2024-01-01T00:00:00"))
           (text_env [] (lit "2024-01-01T00:00:01"))
           Scenario.scraper
           (lit "https://example.test/a") (lit "https://example.test/ab")
           Scenario.ready_world new_table
           {| status_code := 200; body := lit "b" |}
           {| status_code := 200; body := [] |}
           {| soup_title := None; get_text := lit "b" |}
           {| soup_title := None; get_text := [] |}).
  - vm_compute. reflexivity.
  - reflexivity.
  - vm_compute. discriminate.
  - reflexivity.
  - reflexivity.
  - reflexivity.
  - reflexivity.
  - vm_compute. reflexivity.
  - vm_compute. reflexivity.
  - vm_compute. reflexivity.
Defined.

(** *** The transformer again *)

Lemma cleaned_idempotent (d cd : dict) :
  cleaned d = Some cd -> cleaned cd = Some cd.
Proof.
  intros H. apply cleaned_Some in H
    as (t & c & u & ts & bs & _ & _ & _ & _ & He & ->).
  unfold cleaned.
  rewrite !lookup_insert_ne, lookup_insert_eq by done.
  rewrite (lookup_insert_ne _ "data_hash" "content") by done.
  rewrite (lookup_insert_ne _ "title" "content") by done.
  rewrite lookup_insert_eq.
  rewrite (lookup_insert_ne _ "data_hash" "url") by done.
  rewrite (lookup_insert_ne _ "title" "url") by done.
  rewrite (lookup_insert_ne _ "content" "url") by done.
  rewrite lookup_insert_eq.
  rewrite !lookup_insert_ne, lookup_insert_eq by done.
  fold (clean_content c). fold (clean_content (clean_content c)).
  rewrite clean_content_idempotent, strip_idempotent.
  unfold clean_content in *. by rewrite He.
Qed.

(** X9.  [transform_data] is idempotent: applied to a record it returned,
    in any world, it returns that same record (the same title, content,
    url, timestamp and fingerprint). *)
Theorem transform_data_idempotent (self : WebScraper) (data : option dict)
    (w w' : world) (r : dict) :
  (transform_data self data w).1 = Ret (Some r) ->
  (transform_data self (Some r) w').1 = Ret (Some r).
Proof.
  intros H. apply transform_data_Some in H as (d & -> & Hc).
  rewrite transform_data_result.
  assert (Ht : truthy (Some r) = true).
  { apply cleaned_Some in Hc as (?&?&?&?&?&?&?&?&?&?& ->).
    apply truthy_insert. }
  rewrite Ht. cbn [from_option Datatypes.id].
  by rewrite (cleaned_idempotent d r).
Qed.

(** X9, exercised on the cleaned record of the example page. *)
Lemma transform_data_idempotent_witness :
  (transform_data Scenario.scraper (Some example_cleaned)
     Scenario.ready_world).1 = Ret (Some example_cleaned).
Proof.
  apply (transform_data_idempotent Scenario.scraper (Some example_record)
           Scenario.fresh_world).
  vm_compute. reflexivity.
Defined.

(** X10.  [transform_data] never raises, touches no table, makes no
    request and never calls [sqlite3.connect].  It returns a record exactly when it is given
    a dict whose title and content are strings, whose url and timestamp
    are present, and whose hashed text (the url as formatted, then the
    first 100 characters of the cleaned content) UTF-8 can encode; in
    every other case (no dict, an empty dict, a missing field, a title or
    content that is [None], a lone surrogate in the hashed text) it
    returns [None]. *)
Theorem transform_data_succeeds_iff (self : WebScraper)
    (data : option dict) (w : world) :
  (exists o, (transform_data self data w).1 = Ret o) /\
  ((exists r, (transform_data self data w).1 = Ret (Some r)) <->
   exists d t c u ts,
     data = Some d /\
     d !! "title" = Some (PyStr t) /\ d !! "content" = Some (PyStr c) /\
     d !! "url" = Some u /\ d !! "timestamp" = Some ts /\
     is_Some (encode (format u ++ slice_to 100 (clean_content c)))) /\
  tables (transform_data self data w).2 = tables w /\
  (exists evs,
     trace (transform_data self data w).2 = trace w ++ evs /\
     http_gets evs = [] /\ connects evs = []).
Proof.
  split; [apply transform_data_returns|].
  split; [|split; [apply transform_data_tables|]].
  - split.
    + intros [r Hr]. apply transform_data_Some in Hr as (d & -> & Hc).
      apply cleaned_Some in Hc
        as (t & c & u & ts & bs & Ht & Hcc & Hu & Hts & He & _).
      exists d, t, c, u, ts. repeat (split; [done|]). by eexists.
    + intros (d & t & c & u & ts & -> & Ht & Hc & Hu & Hts & [bs He]).
      rewrite transform_data_result.
      assert (Htruthy : truthy (Some d) = true).
      { cbn. apply negb_true_iff, bool_decide_eq_false. intros ->.
        by rewrite lookup_empty in Ht. }
      rewrite Htruthy. cbn [from_option Datatypes.id]. unfold cleaned.
      unfold clean_content in He. rewrite Ht, Hc, Hu, Hts, He. by eexists.
  - destruct (transform_data_events self data w)
      as (evs & Htr & Hg & Hc & _). by exists evs.
Qed.

(** X10, exercised on the record of the example page. *)
Lemma transform_data_succeeds_iff_witness :
  exists r,
    (transform_data Scenario.scraper (Some example_record)
       Scenario.fresh_world).1 = Ret (Some r).
Proof.
  apply (proj1 (proj2 (transform_data_succeeds_iff Scenario.scraper
                         (Some example_record) Scenario.fresh_world))).
  exists example_record, (lit "T"), (lit "Thello world"),
    (PyStr Scenario.example_url), (PyStr (lit "2024-01-01T00:00:00")).
  split; [reflexivity|]. split; [reflexivity|]. split; [reflexivity|].
  split; [reflexivity|]. split; [reflexivity|]. vm_compute. by eexists.
Defined.

(** X11.  The content of a record [transform_data] returns is the
    maximal runs of non-whitespace characters of the input content, in
    order and joined by single spaces, where the input is these runs and
    whitespace, with some whitespace between any two runs; the runs are
    determined by the input.  So the content has exactly the
    non-whitespace characters of the input, in order, and is never longer
    than the input; the title is never longer than the input title. *)
Theorem cleaned_content_shape (self : WebScraper) (d : dict) (w : world)
    (t c : pystr) (r : dict) :
  d !! "title" = Some (PyStr t) ->
  d !! "content" = Some (PyStr c) ->
  (transform_data self (Some d) w).1 = Ret (Some r) ->
  exists t' c' words,
    r !! "title" = Some (PyStr t') /\
    r !! "content" = Some (PyStr c') /\
    c' = join [space] words /\
    maximal_runs c words /\
    (forall other, maximal_runs c other -> other = words) /\
    Forall word words /\
    mjoin words = non_space c /\
    non_space c' = non_space c /\
    (length c' <= length c)%nat /\
    (length t' <= length t)%nat.
Proof.
  intros Ht Hc H. apply transform_data_Some in H as (d' & [= <-] & Hcl).
  apply cleaned_Some in Hcl
    as (t0 & c0 & u & ts & bs & Ht0 & Hc0 & _ & _ & _ & ->).
  rewrite Ht in Ht0. rewrite Hc in Hc0. simplify_eq.
  exists (strip t0), (clean_content c0), (split c0).
  split; [by rewrite lookup_insert_ne, lookup_insert_eq by done|].
  split; [by rewrite !lookup_insert_ne, lookup_insert_eq by done|].
  split; [done|]. split; [by apply maximal_runs_split|].
  split; [intros other; by apply maximal_runs_split|].
  split; [by apply split_from_words|].
  split; [by apply (mjoin_split_from [])|].
  split; [apply clean_content_non_space|].
  split.
  - unfold clean_content, split. change (lit " ") with [space].
    etrans; [apply join_split_from_length|]. cbn [length]. lia.
  - destruct (strip_removes_outer_whitespace t0)
      as (lead & trail & Heq & _). rewrite Heq at 2.
    rewrite !length_app. lia.
Qed.

(** X11, exercised on the spec's example content. *)
Lemma cleaned_content_shape_witness :
  let d := record Scenario.example_url (lit "  T ") example_content
             (lit "2024-01-01T00:00:00") in
  exists t' c' words,
    default ∅ (cleaned d) !! "title" = Some (PyStr t') /\
    default ∅ (cleaned d) !! "content" = Some (PyStr c') /\
    c' = join [space] words /\
    maximal_runs example_content words /\
    (forall other, maximal_runs example_content other -> other = words) /\
    Forall word words /\
    mjoin words = non_space example_content /\
    non_space c' = non_space example_content /\
    (length c' <= length example_content)%nat /\
    (length t' <= length (lit "  T "))%nat.
Proof.
  intros d.
  apply (cleaned_content_shape Scenario.scraper d Scenario.fresh_world).
  - reflexivity.
  - reflexivity.
  - vm_compute. reflexivity.
Defined.

(** X12.  The fingerprint of every record [transform_data] returns is a
    string of exactly 32 characters, each a lowercase hexadecimal digit;
    so it is always a value the loader can store. *)
Theorem data_hash_format (self : WebScraper) (data : option dict)
    (w : world) (r : dict) :
  (transform_data self data w).1 = Ret (Some r) ->
  exists h,
    r !! "data_hash" = Some (PyStr h) /\
    length h = 32%nat /\
    Forall (fun c => is_hex_digit c = true) h /\
    storable (PyStr h) = true.
Proof.
  intros H. apply transform_data_Some in H as (d & -> & Hcl).
  apply cleaned_Some in Hcl as (t & c & u & ts & bs & _ & _ & _ & _ & _ & ->).
  exists (MD5.hexdigest bs). split; [by rewrite lookup_insert_eq|].
  destruct (hexdigest_format bs) as [Hl Hf].
  split; [done|]. split; [done|].
  apply storable_PyStr, hexdigest_encodable.
Qed.

(** X12, exercised on the record of the example page. *)
Lemma data_hash_format_witness :
  exists h,
    example_cleaned !! "data_hash" = Some (PyStr h) /\
    length h = 32%nat /\
    Forall (fun c => is_hex_digit c = true) h /\
    storable (PyStr h) = true.
Proof.
  apply (data_hash_format Scenario.scraper (Some example_record)
           Scenario.fresh_world).
  vm_compute. reflexivity.
Defined.

(** *** The constructor and the driver *)

Lemma init_events (e : env) (name : pystr) (w : world) :
  exists evs,
    trace (init e name w).2 = trace w ++ evs /\
    http_gets evs = [] /\ connects evs = [name].
Proof. run_py. repeat split_match; close_events. Qed.

Lemma init_result (e : env) (name : pystr) (w : world) :
  (init e name w).1
  = match first_fault e with
    | Some ex => Raise ex
    | None => Ret {| db_name := name |}
    end.
Proof.
  unfold first_fault. run_py. repeat split_match; simplify_eq; done.
Qed.

(** X13.  The constructor never loses data: every table that exists
    before it, in any database file, is there unchanged after it, whether
    it returns or raises; it calls [sqlite3.connect] exactly once, for
    its own database, and makes no request. *)
Theorem constructor_keeps_tables (e : env) (name : pystr) (w : world) :
  (forall n t,
     tables w !! n = Some t -> tables (init e name w).2 !! n = Some t) /\
  (forall n, n <> name ->
     tables (init e name w).2 !! n = tables w !! n) /\
  (exists evs,
     trace (init e name w).2 = trace w ++ evs /\
     http_gets evs = [] /\ connects evs = [name]).
Proof.
  split; [|split; [|apply init_events]].
  - intros n t Hn. destruct (init_tables e name w) as [->|[Hnone ->]].
    + done.
    + rewrite lookup_insert_ne; [done|]. intros ->. congruence.
  - intros n Hne. destruct (init_tables e name w) as [->|[Hnone ->]].
    + done.
    + rewrite lookup_insert_ne; [done|]. congruence.
Qed.

(** X13, exercised: constructing again over the crowded table keeps it. *)
Lemma constructor_keeps_tables_witness :
  tables (init Scenario.ok_env default_db_name crowded_world).2
    !! default_db_name = Some crowded_table.
Proof.
  apply (proj1 (constructor_keeps_tables Scenario.ok_env default_db_name
                  crowded_world)).
  reflexivity.
Defined.



Lemma process_urls_spec (env_at : nat -> env) (scraper : WebScraper)
    (us : list pystr) :
  forall (i : nat) (w : world),
    exists printed evs,
      (Main.process_urls env_at scraper i us w).1 = Ret printed /\
      Forall2 (fun u line => exists b, line = Main.report u b) us printed /\
      trace (Main.process_urls env_at scraper i us w).2 = trace w ++ evs /\
      http_gets evs = us /\
      (world_ok w ->
       world_ok (Main.process_urls env_at scraper i us w).2).
Proof.
  induction us as [|u us IH]; intros i w.
  - exists [], []. cbn. rewrite app_nil_r. by repeat split.
  - cbn [Main.process_urls]. unfold bind, ret.
    destruct (run_pipeline_with_returns
                (extract_data (env_at i) scraper) (transform_data scraper)
                (load_data (env_at i) scraper) u w) as [b Hb].
    fold (run_pipeline (env_at i) scraper u w) in Hb.
    destruct (run_pipeline_events (env_at i) scraper u w)
      as (ev1 & Ht1 & Hg1 & _).
    pose proof (run_pipeline_world_ok (env_at i) scraper u w) as Hok1.
    destruct (run_pipeline (env_at i) scraper u w) as [o w1].
    cbn in Hb, Ht1, Hok1. subst o.
    destruct (IH (S i) w1) as (printed & ev2 & Hp & Hf & Ht2 & Hg2 & Hok2).
    destruct (Main.process_urls env_at scraper (S i) us w1) as [o w2].
    cbn in Hp, Ht2, Hok2. subst o. cbn.
    exists (Main.report u b :: printed), (ev1 ++ ev2).
    split; [done|]. split; [constructor; [by exists b|done]|].
    split; [by rewrite Ht2, Ht1, app_assoc|].
    split; [by rewrite http_gets_app, Hg1, Hg2|]. auto.
Qed.

(** X14.  The driver.  [main] raises exactly when the constructor meets a
    storage error, and then before any request is made.  Otherwise it
    returns, having printed one line per URL of its list, in order, each
    either the success or the failure line for that URL, and having
    requested each URL once, in order: a URL that fails does not stop the
    ones after it.  A world whose tables are well formed stays so. *)
Theorem main_reports_every_url (env_init : env) (env_at : nat -> env)
    (w : world) :
  (forall ex,
     first_fault env_init = Some ex ->
     (Main.main env_init env_at w).1 = Raise ex /\
     exists evs,
       trace (Main.main env_init env_at w).2 = trace w ++ evs /\
       http_gets evs = []) /\
  (first_fault env_init = None ->
   exists printed evs,
     (Main.main env_init env_at w).1 = Ret printed /\
     Forall2 (fun u line => exists b, line = Main.report u b)
       Main.urls printed /\
     trace (Main.main env_init env_at w).2 = trace w ++ evs /\
     http_gets evs = Main.urls) /\
  (world_ok w -> world_ok (Main.main env_init env_at w).2).
Proof.
  unfold Main.main, bind.
  destruct (init_events env_init default_db_name w) as (ev0 & Ht0 & Hg0 & _).
  pose proof (init_world_ok env_init default_db_name w) as Hok0.
  pose proof (init_result env_init default_db_name w) as Hres.
  destruct (init env_init default_db_name w) as [o w0].
  cbn in Ht0, Hok0, Hres. subst o.
  destruct (process_urls_spec env_at {| db_name := default_db_name |}
              Main.urls 0%nat w0)
    as (printed & evs & Hp & Hf2 & Ht & Hg & Hok).
  split; [|split].
  - intros ex Hf. rewrite Hf. split; [done|]. by exists ev0.
  - intros Hf. rewrite Hf.
    exists printed, (ev0 ++ evs). split; [done|]. split; [done|].
    split; [by rewrite Ht, Ht0, app_assoc|].
    by rewrite http_gets_app, Hg0, Hg.
  - intros Hw. destruct (first_fault env_init); [by apply Hok0|].
    by apply Hok, Hok0.
Qed.

(** X14, exercised: with storage locked, [main] raises what the
    constructor met; with the example endpoint it prints two lines. *)
Lemma main_reports_every_url_witness :
  (Main.main Scenario.locked_env (fun _ => Scenario.ok_env)
     Scenario.fresh_world).1
  = Raise (Exn SqliteError (lit "unable to open database file")) /\
  exists printed evs,
    (Main.main Scenario.ok_env (fun _ => Scenario.ok_env)
       Scenario.fresh_world).1 = Ret printed /\
    Forall2 (fun u line => exists b, line = Main.report u b)
      Main.urls printed /\
    trace (Main.main Scenario.ok_env (fun _ => Scenario.ok_env)
             Scenario.fresh_world).2
    = trace Scenario.fresh_world ++ evs /\
    http_gets evs = Main.urls.
Proof.
  split.
  - apply (proj1 (main_reports_every_url Scenario.locked_env
                    (fun _ => Scenario.ok_env) Scenario.fresh_world)).
    reflexivity.
  - apply (proj1 (proj2 (main_reports_every_url Scenario.ok_env
                           (fun _ => Scenario.ok_env)
                           Scenario.fresh_world))).
    reflexivity.
Defined.

(** X15.  What [extract_data] does besides returning: it changes no
    table, never calls [sqlite3.connect] and requests the URL exactly
    once; a record it returns holds exactly the four fields url, title,
    content and timestamp, with the URL given, the time of the call, and
    as content a prefix of the document's text. *)
Theorem extract_data_effects (e : env) (self : WebScraper) (u : pystr)
    (w : world) :
  tables (extract_data e self u w).2 = tables w /\
  (exists evs,
     trace (extract_data e self u w).2 = trace w ++ evs /\
     http_gets evs = [u] /\ connects evs = []) /\
  (forall raw,
     (extract_data e self u w).1 = Ret (Some raw) ->
     dom raw = ({["url"; "title"; "content"; "timestamp"]} : gset string) /\
     raw !! "url" = Some (PyStr u) /\
     raw !! "timestamp" = Some (PyStr (datetime_now e)) /\
     exists r soup c,
       requests_get e u = Ret r /\ html_parser e (body r) = Ret soup /\
       raw !! "content" = Some (PyStr c) /\ c `prefix_of` get_text soup).
Proof.
  split; [apply extract_data_tables|].
  split; [apply extract_data_events|].
  intros raw. rewrite extract_data_result. unfold contained.
  destruct (requests_get e u) as [r|ex] eqn:Hr;
    [|by destruct (is_RequestException ex)].
  destruct (error_status r); [done|].
  destruct (html_parser e (body r)) as [soup|ex] eqn:Hp;
    [|by destruct (is_RequestException ex)].
  intros [= <-]. unfold raw_record.
  split; [rewrite !dom_insert_L, dom_empty_L; set_solver|].
  split; [by rewrite lookup_insert_eq|].
  split; [by rewrite !lookup_insert_ne, lookup_insert_eq by done|].
  exists r, soup, (slice_to 1000 (get_text soup)).
  split; [done|]. split; [done|].
  split; [by rewrite !lookup_insert_ne, lookup_insert_eq by done|].
  apply prefix_take.
Qed.

(** X15, exercised on the example page. *)
Lemma extract_data_effects_witness :
  dom (raw_record Scenario.ok_env Scenario.example_url Scenario.page_soup)
  = ({["url"; "title"; "content"; "timestamp"]} : gset string).
Proof.
  apply (proj2 (proj2 (extract_data_effects Scenario.ok_env Scenario.scraper
                         Scenario.example_url Scenario.fresh_world))).
  reflexivity.
Defined.

(** X16.  What [load_data] does besides returning: it makes no request;
    given a non-empty dict it calls [sqlite3.connect] exactly once, for
    the scraper's database, and given [None] or an empty dict not at all;
    it never touches the table of another database file, never changes
    how the table is declared, and never creates a table that is
    missing. *)
Theorem load_data_effects (e : env) (self : WebScraper) (data : option dict)
    (w : world) :
  (exists evs,
     trace (load_data e self data w).2 = trace w ++ evs /\
     http_gets evs = [] /\
     connects evs = (if truthy data then [db_name self] else [])) /\
  (forall name, name <> db_name self ->
     tables (load_data e self data w).2 !! name = tables w !! name) /\
  (declared <$> tables (load_data e self data w).2 !! db_name self)
  = (declared <$> tables w !! db_name self).
Proof.
  split; [apply load_data_events|].
  destruct (load_data_tables e self data w)
    as [->|(t & vt & vc & vu & vts & vh & Ht & ->)]; [done|].
  split.
  - intros name Hne. by rewrite lookup_insert_ne by congruence.
  - by rewrite lookup_insert_eq, Ht.
Qed.

(** X16, exercised: loading into the default database leaves the table
    of another file alone. *)
Lemma load_data_effects_witness :
  tables (load_data Scenario.ok_env {| db_name := lit "other.db" |}
            (Some example_cleaned) crowded_world).2 !! default_db_name
  = tables crowded_world !! default_db_name.
Proof.
  apply (proj1 (proj2 (load_data_effects Scenario.ok_env
                         {| db_name := lit "other.db" |}
                         (Some example_cleaned) crowded_world))).
  vm_compute. discriminate.
Defined.

Lemma length_filter_split (A B : row -> Prop)
    `{!forall r, Decision (A r)} `{!forall r, Decision (B r)}
    (l : list row) :
  (length l
   <= length (filter (fun r => ~ A r /\ ~ B r) l)
      + length (filter A l) + length (filter B l))%nat.
Proof.
  induction l as [|r l IH]; [done|].
  rewrite !filter_cons.
  destruct (decide (A r)), (decide (B r)), (decide (~ A r /\ ~ B r));
    cbn [length]; try lia; tauto.
Qed.

Lemma table_ok_declared (t : table) :
  table_ok t = true -> declared t = Sqlite.web_data_schema.
Proof.
  unfold table_ok. intros H.
  apply andb_prop in H as [H _]. apply andb_prop in H as [H _].
  apply andb_prop in H as [Hu Hh].
  destruct (declared t) as [a b]. cbn in *. by subst.
Qed.

(** X17.  How far one run moves a well-formed table: the table stays, a
    run that returns [False] leaves it as it is, and a run that returns
    [True] raises the sequence by exactly one and changes the number of
    rows by at most one in either direction (it deletes at most two rows
    and adds one). *)
Theorem run_pipeline_table_progress (e : env) (self : WebScraper)
    (u : pystr) (w : world) (t : table) :
  tables w !! db_name self = Some t ->
  table_ok t = true ->
  exists t',
    tables (run_pipeline e self u w).2 !! db_name self = Some t' /\
    ((run_pipeline e self u w).1 = Ret false -> t' = t) /\
    ((run_pipeline e self u w).1 = Ret true ->
     sequence t' = sequence t + 1 /\
     (length (rows t') <= length (rows t) + 1)%nat /\
     (length (rows t) <= length (rows t') + 1)%nat).
Proof.
  intros Ht Hok.
  destruct (run_pipeline_with_returns (extract_data e self)
              (transform_data self) (load_data e self) u w) as [b Hb].
  fold (run_pipeline e self u w) in Hb. destruct b.
  - destruct (run_pipeline_stored e self u w Hb)
      as (r & soup & ti & bs & tbl & _ & _ & _ & _ & Htbl & Hw).
    rewrite Ht in Htbl. injection Htbl as <-.
    eexists. split; [by rewrite Hw, lookup_insert_eq|].
    split; [by rewrite Hb|]. intros _. split; [done|].
    rewrite replace_into_rows by (by apply table_ok_declared).
    rewrite length_app. cbn [length].
    pose proof (length_filter (fun r => url r <> Some u /\
                  data_hash r <> Some (MD5.hexdigest bs)) (rows t)).
    pose proof (length_filter_split (fun r => url r = Some u)
                  (fun r => data_hash r = Some (MD5.hexdigest bs)) (rows t)).
    pose proof (table_ok_rows_for t u Hok) as Hu. unfold rows_for in Hu.
    pose proof (table_ok_rows_hash t (MD5.hexdigest bs) Hok).
    lia.
  - exists t. rewrite run_pipeline_false_tables by done.
    split; [done|]. split; [done|]. by rewrite Hb.
Qed.

(** X17, exercised: the run for the example page takes the crowded table
    from three rows to two. *)
Lemma run_pipeline_table_progress_witness :
  exists t',
    tables (run_pipeline Scenario.ok_env Scenario.scraper
              Scenario.example_url crowded_world).2
      !! db_name Scenario.scraper = Some t' /\
    ((run_pipeline Scenario.ok_env Scenario.scraper Scenario.example_url
        crowded_world).1 = Ret false -> t' = crowded_table) /\
    ((run_pipeline Scenario.ok_env Scenario.scraper Scenario.example_url
        crowded_world).1 = Ret true ->
     sequence t' = sequence crowded_table + 1 /\
     (length (rows t') <= length (rows crowded_table) + 1)%nat /\
     (length (rows crowded_table) <= length (rows t') + 1)%nat).
Proof.
  apply (run_pipeline_table_progress Scenario.ok_env Scenario.scraper
           Scenario.example_url crowded_world crowded_table).
  - reflexivity.
  - vm_compute. reflexivity.
Defined.

Example crowded_table_after_run :
  (length ∘ rows <$>
     tables (run_pipeline Scenario.ok_env Scenario.scraper
               Scenario.example_url crowded_world).2 !! default_db_name)
  = Some 2%nat.
Proof. vm_compute. reflexivity. Qed.

